(** * File cleanser: extraction, redaction and reconstruction pipeline

    A shallow embedding of [file_cleanser.py] (the batch pipeline with the
    AI summary and the per-format export), of [File_analyser.py] (the
    single-file pipeline with the Groq insights) and of [app.py] (the
    single-file pipeline without them).

    Conventions.
    - A Python [str] is a [string] of 8-bit characters, read as the code
      points below 256.  Interface labels that contain other characters
      appear UTF-8 encoded; the code never inspects them.
    - The third-party libraries (python-docx, openpyxl, python-pptx,
      PyMuPDF, pytesseract, Presidio, the LangChain chain, the Groq
      client, the clock) and the environment variable of the key are the
      fields of the record [externals]; every theorem holds for all of
      them.  A parser that raises is a field returning [None]; the
      constructors of the language model and of the Groq client raise
      when the key is not set.
    - Streamlit calls and calls to the redaction and summarization engines
      are recorded, in program order, in the [trace] of the [world]. *)

From Stdlib Require Import ZArith Ascii DecimalString.
From Stdlib Require String.
From stdpp Require Import base option list gmap strings.

(** ** Python strings *)

Module Py.

Definition newline : ascii := "010"%char.

(** [str.isspace] on the code points below 256: the C whitespace
    characters, the four information separators, NEL and NBSP. *)
Definition isspace (c : ascii) : bool :=
  let n := nat_of_ascii c in
  ((9 <=? n) && (n <=? 13)) || ((28 <=? n) && (n <=? 32))
  || (n =? 133) || (n =? 160).

(** [s.endswith(suf)]: some tail of [s] is [suf]. *)
Fixpoint endswith (s suf : string) : bool :=
  if String.eqb s suf then true
  else match s with
       | EmptyString => false
       | String _ s' => endswith s' suf
       end.

(** [s.endswith((a, b))] *)
Definition endswith2 (s a b : string) : bool := endswith s a || endswith s b.

(** [s.startswith(pre)] *)
Definition startswith (s pre : string) : bool := String.prefix pre s.

(** [sep.join(parts)] *)
Definition join (sep : string) (parts : list string) : string :=
  String.concat sep parts.

(** [s.split(sep)] for a one-character separator.  [cur] holds the piece
    being read; the pieces are returned in order, the last one included
    even when it is empty. *)
Fixpoint split_on_go (sep : ascii) (cur : string) (s : string) : list string :=
  match s with
  | EmptyString => [String.rev cur]
  | String c s' =>
      if Ascii.eqb c sep then String.rev cur :: split_on_go sep EmptyString s'
      else split_on_go sep (String c cur) s'
  end.
Definition split_on (sep : ascii) (s : string) : list string :=
  split_on_go sep EmptyString s.

(** [s.split()]: maximal runs of characters that are not whitespace. *)
Fixpoint split_go (cur : option string) (s : string) : list string :=
  match s with
  | EmptyString => option_list (String.rev <$> cur)
  | String c s' =>
      if isspace c then option_list (String.rev <$> cur) ++ split_go None s'
      else split_go (Some (String c (default EmptyString cur))) s'
  end.
Definition split (s : string) : list string := split_go None s.

(** [s[:n]] *)
Fixpoint slice_to (n : nat) (s : string) : string :=
  match n, s with
  | S n', String c s' => String c (slice_to n' s')
  | _, _ => EmptyString
  end.

(** [s.lstrip()], [s.rstrip()], [s.strip()] *)
Fixpoint lstrip (s : string) : string :=
  match s with
  | String c s' => if isspace c then lstrip s' else s
  | EmptyString => EmptyString
  end.
Definition rstrip (s : string) : string := String.rev (lstrip (String.rev s)).
Definition strip (s : string) : string := rstrip (lstrip s).

(** Truth value of a [str]: non-empty. *)
Definition nonempty (s : string) : bool :=
  match s with EmptyString => false | String _ _ => true end.

(** [str(n)] for an [int]. *)
Definition str_of_int (n : Z) : string := NilZero.string_of_int (Z.to_int n).

(** [enumerate(xs, start)] *)
Fixpoint enumerate {A} (start : nat) (xs : list A) : list (nat * A) :=
  match xs with
  | [] => []
  | x :: xs' => (start, x) :: enumerate (S start) xs'
  end.

(** Number of occurrences of a character. *)
Fixpoint count_char (c : ascii) (s : string) : nat :=
  match s with
  | EmptyString => 0
  | String d s' => (if Ascii.eqb d c then 1 else 0) + count_char c s'
  end.

(** Every character of [s] satisfies [p]. *)
Fixpoint forallb_str (p : ascii → bool) (s : string) : bool :=
  match s with
  | EmptyString => true
  | String c s' => p c && forallb_str p s'
  end.

End Py.

(** ** Documents as the parsing libraries present them *)

(** A cell value as [iter_rows(values_only=True)] yields it.  [VOther]
    stands for the remaining value types (float, date, time): the code
    only takes their truth value and their [str()]. *)
Inductive cell_value :=
| VNone
| VBool (b : bool)
| VInt (n : Z)
| VStr (s : string)
| VOther (truth : bool) (repr : string).

(** Truth value, as [if cell] takes it. *)
Definition truthy (v : cell_value) : bool :=
  match v with
  | VNone => false
  | VBool b => b
  | VInt n => negb (n =? 0)%Z
  | VStr s => Py.nonempty s
  | VOther t _ => t
  end.

(** [str(cell)] *)
Definition str (v : cell_value) : string :=
  match v with
  | VNone => "None"
  | VBool true => "True"
  | VBool false => "False"
  | VInt n => Py.str_of_int n
  | VStr s => s
  | VOther _ r => r
  end.

(** A worksheet of a loaded workbook: its title and the rows that
    [iter_rows(values_only=True)] yields, top to bottom. *)
Record worksheet := { title : string; iter_rows : list (list cell_value) }.

(** [docx.Document]: [paragraphs] gives each paragraph's [text]; [tables]
    gives, per table and per row, each cell's [text]. *)
Record docx_document := {
  paragraphs : list string;
  tables : list (list (list string));
}.

(** A slide is the list of its shapes; a shape has a [text] attribute or
    has none. *)
Definition slide_shapes := list (option string).

(** An [UploadedFile]: [name], [type] (the media type) and the bytes that
    [read()] returns on a fresh upload or after [seek(0)]. *)
Record uploaded_file := {
  name : string;
  type : string;
  data : list Byte.byte;
}.

(** What the Groq completion of [File_analyser.py] gives: the content of
    the answer, or the message of the exception it raised. *)
Inductive completion :=
| Answer (content : string)
| Failed (message : string).

(** A detection of the analyzer (the score, a float, is not used by the
    code and is left out). *)
Record recognizer_result := {
  entity_type : string;
  span_start : nat;
  span_end : nat;
}.

(** The libraries and services the program calls. *)
Record externals := {
  (** [bytes.decode("utf-8")] *)
  decode_utf8 : list Byte.byte → option string;
  (** [fitz.open(stream=..., filetype="pdf")], then [get_text()] per page *)
  fitz_open : list Byte.byte → option (list string);
  (** [docx.Document(file)] *)
  docx_Document : list Byte.byte → option docx_document;
  (** [openpyxl.load_workbook(..., data_only=True).worksheets] *)
  load_workbook : list Byte.byte → option (list worksheet);
  (** [Presentation(file).slides], each with its shapes *)
  pptx_Presentation : list Byte.byte → option (list slide_shapes);
  (** [pytesseract.image_to_string(Image.open(file))] *)
  image_to_string : list Byte.byte → option string;
  (** [analyzer.analyze(text=..., language="en")] *)
  analyze : string → list recognizer_result;
  (** [anonymizer.anonymize(text=..., analyzer_results=...).text] *)
  anonymize : string → list recognizer_result → string;
  (** [datetime.now().strftime(...)] at the n-th reading of the clock *)
  now : nat → string;
  (** [chain.run(text=...)] at the n-th call; [None] when it raises *)
  chain_run : nat → string → option string;
  (** [os.getenv("GROQ_API_KEY")] *)
  groq_api_key : option string;
  (** the Groq chat completion of [File_analyser.py] *)
  groq_complete : string → completion;
  (** [doc.add_paragraph(line)] of python-docx returns; [false] when it
      raises (the library refuses texts that XML cannot hold) *)
  add_paragraph_ok : string → bool;
}.

(** Exceptions, named by the call that raises them.  [GroqError] is what
    [Groq(api_key=None)] raises, [ValidationError] what the construction
    of [GroqLLM] raises on a missing key, [ValueError] what
    [add_paragraph] raises on a text it refuses. *)
Inductive exn :=
| DecodeError
| PdfOpenError
| DocxOpenError
| WorkbookLoadError
| PresentationOpenError
| ImageError
| ChainRunError
| GroqError
| ValidationError
| ValueError
| AttributeError.

Inductive outcome (A : Type) :=
| Done (a : A)
| Raise (e : exn).
Arguments Done {A} a.
Arguments Raise {A} e.

Definition is_done {A} (o : outcome A) : bool :=
  match o with Done _ => true | Raise _ => false end.

(** A call that raises: [None] becomes the exception [e]. *)
Definition or_raise {A} (e : exn) (o : option A) : outcome A :=
  match o with Some a => Done a | None => Raise e end.

#[global] Instance outcome_ret : MRet outcome := λ A a, Done a.
#[global] Instance outcome_bind : MBind outcome := λ A B f m,
  match m with Done a => f a | Raise e => Raise e end.
#[global] Instance outcome_fmap : FMap outcome := λ A B f m,
  match m with Done a => Done (f a) | Raise e => Raise e end.

(** ** Text extraction: [extract_text] *)

Section Extraction.
Context (E : externals).

(** [for para in doc.paragraphs: text += para.text + "\n"] and the
    loops over the tables (lines 80 to 84). *)
Definition extract_docx (doc : docx_document) (text : string) : string :=
  let text := foldl (λ text para, text +:+ para +:+ String Py.newline "") text (paragraphs doc) in
  foldl (λ text table,
    foldl (λ text row,
      let text := foldl (λ text cell, text +:+ cell +:+ " ") text row in
      text +:+ String Py.newline "") text table) text (tables doc).

(** The loops over sheets, rows and cells (lines 88 to 92). *)
Definition extract_xlsx (workbook : list worksheet) (text : string) : string :=
  foldl (λ text sheet,
    foldl (λ text row,
      let text := foldl (λ text cell,
                    if truthy cell then text +:+ str cell +:+ " " else text) text row in
      text +:+ String Py.newline "") text (iter_rows sheet)) text workbook.

(** The loops over slides and shapes (lines 96 to 98). *)
Definition extract_pptx (slides : list slide_shapes) (text : string) : string :=
  foldl (λ text slide,
    foldl (λ text shape,
      match shape with
      | Some t => text +:+ t +:+ String Py.newline ""
      | None => text
      end) text slide) text slides.

(** [for page in pdf: text += page.get_text()] *)
Definition extract_pdf (pages : list string) (text : string) : string :=
  foldl (λ text page, text +:+ page) text pages.

Definition extract_text (file : uploaded_file) : outcome string :=
  let text := "" in
  if String.eqb (type file) "text/plain" then
    or_raise DecodeError (decode_utf8 E (data file))
  else if String.eqb (type file) "application/pdf" then
    pdf ← or_raise PdfOpenError (fitz_open E (data file));
    mret (extract_pdf pdf text)
  else if Py.endswith2 (name file) ".docx" ".DOCX" then
    doc ← or_raise DocxOpenError (docx_Document E (data file));
    mret (extract_docx doc text)
  else if Py.endswith2 (name file) ".xlsx" ".XLSX" then
    workbook ← or_raise WorkbookLoadError (load_workbook E (data file));
    mret (extract_xlsx workbook text)
  else if Py.endswith2 (name file) ".pptx" ".PPTX" then
    pres ← or_raise PresentationOpenError (pptx_Presentation E (data file));
    mret (extract_pptx pres text)
  else if Py.startswith (type file) "image" then
    or_raise ImageError (image_to_string E (data file))
  else
    mret text.

End Extraction.

(** ** Artifacts the program builds *)

(** A worksheet of the workbook under construction: [cell(row, column,
    value)] stores into a dictionary keyed by (row, column). *)
Record new_worksheet := {
  ws_title : string;
  ws_cells : gmap (nat * nat) string;
}.

(** [openpyxl.Workbook()]: one empty sheet titled "Sheet", which is the
    active one (index 0). *)
Definition Workbook : list new_worksheet :=
  [ {| ws_title := "Sheet"; ws_cells := ∅ |} ].

(** [wb.remove(wb.active)] *)
Definition remove_active (wb : list new_worksheet) : list new_worksheet :=
  delete 0 wb.

(** [wb.create_sheet(title=t)]: a new empty sheet at the end.  (The
    library renames a title already present in the workbook; the titles of
    a loaded workbook are pairwise distinct.) *)
Definition create_sheet (t : string) (wb : list new_worksheet) : list new_worksheet :=
  wb ++ [ {| ws_title := t; ws_cells := ∅ |} ].

(** [ws.cell(row=r, column=c, value=v)] *)
Definition ws_cell (r c : nat) (v : string) (ws : new_worksheet) : new_worksheet :=
  {| ws_title := ws_title ws; ws_cells := <[(r, c) := v]> (ws_cells ws) |}.

(** A slide added by [add_slide(layout)] with its title text set. *)
Record new_slide := {
  slide_layout : nat;
  slide_title : string;
}.

(** The [data] of a download button: a text, or the saved document. *)
Inductive artifact :=
| TextData (text : string)
| DocxData (paragraphs : list string)
| XlsxData (sheets : list new_worksheet)
| PptxData (slides : list new_slide).

(** ** The world: session state and observable calls *)

Record upload_record := { filename : string; timestamp : string }.

Inductive event :=
| StTitle (body : string)
| StSubheader (body : string)
| StTextArea (label value : string)
| StDownloadButton (label : string) (data : artifact) (file_name : string) (mime : option string)
| StWrite (body : string)
| StSuccess (body : string)
| StWarning (body : string)
| StError (body : string)
| StInfo (body : string)
| StMarkdown (body : string)
| CallAnalyze (text : string)
| CallAnonymize (text : string) (results : list recognizer_result)
| CallChainRun (text : string)
| CallGroq (prompt : string).

Record world := {
  (** [st.session_state] *)
  session_state : gmap string (list upload_record);
  (** Streamlit and engine calls so far, oldest first *)
  trace : list event;
  (** readings of the clock so far *)
  clock : nat;
  (** calls of [chain.run] so far *)
  llm_calls : nat;
}.

Definition add_trace (es : list event) (w : world) : world :=
  {| session_state := session_state w; trace := trace w ++ es;
     clock := clock w; llm_calls := llm_calls w |}.

(** The history list, empty when the key is absent. *)
Definition upload_history (w : world) : list upload_record :=
  default [] (session_state w !! "upload_history").

(** Computations: a world in, an outcome and a world out.  A raised
    exception keeps the effects made before it. *)
Definition M (A : Type) : Type := world → outcome A * world.

#[global] Instance M_ret : MRet M := λ A a w, (Done a, w).
#[global] Instance M_bind : MBind M := λ A B f m w,
  match m w with
  | (Done a, w') => f a w'
  | (Raise e, w') => (Raise e, w')
  end.

Definition lift {A} (o : outcome A) : M A := λ w, (o, w).

Definition emit (e : event) : M unit := λ w, (Done tt, add_trace [e] w).

(** [try: body  except: handler] with a bare [except]. *)
Definition try_except {A} (body handler : M A) : M A := λ w,
  match body w with
  | (Done a, w') => (Done a, w')
  | (Raise _, w') => handler w'
  end.

(** [for x in xs: body] *)
Fixpoint for_each {A} (xs : list A) (body : A → M unit) : M unit :=
  match xs with
  | [] => mret tt
  | x :: xs' => body x;; for_each xs' body
  end.

(** [for x in xs: body], the body updating a local object [s]. *)
Fixpoint for_fold {A S} (xs : list A) (body : A → S → M S) (s : S) : M S :=
  match xs with
  | [] => mret s
  | x :: xs' => s' ← body x s; for_fold xs' body s'
  end.

(** ** [file_cleanser.py]: the batch pipeline *)

Section Cleanser.
Context (E : externals).

(** [analyzer.analyze] followed by [anonymizer.anonymize(...).text] *)
Definition redacted (text : string) : string :=
  anonymize E text (analyze E text).

Definition redact (text : string) : M string :=
  emit (CallAnalyze text);;
  let results := analyze E text in
  emit (CallAnonymize text results);;
  mret (anonymize E text results).

(** [datetime.now().strftime("%Y-%m-%d %H:%M:%S")] *)
Definition datetime_now : M string := λ w,
  (Done (now E (clock w)),
   {| session_state := session_state w; trace := trace w;
      clock := S (clock w); llm_calls := llm_calls w |}).

(** [st.session_state.upload_history.append(entry)] *)
Definition history_append (entry : upload_record) : M unit := λ w,
  match session_state w !! "upload_history" with
  | Some h =>
      (Done tt,
       {| session_state := <["upload_history" := h ++ [entry]]> (session_state w);
          trace := trace w; clock := clock w; llm_calls := llm_calls w |})
  | None => (Raise AttributeError, w)
  end.

(** [st.session_state.upload_history], read *)
Definition history_get : M (list upload_record) := λ w,
  (or_raise AttributeError (session_state w !! "upload_history"), w).

(** [chain.run(text=...)] *)
Definition chain_run_call (text : string) : M string := λ w,
  (or_raise ChainRunError (chain_run E (llm_calls w) text),
   {| session_state := session_state w; trace := trace w ++ [CallChainRun text];
      clock := clock w; llm_calls := S (llm_calls w) |}).

(** Lines 128 to 131. *)
Definition ai_summary_of (anonymized_text : string) : M string :=
  try_except (chain_run_call anonymized_text) (mret "AI summary unavailable.").

(** The row loop of the spreadsheet export (lines 166 to 172);
    [new_sheet] is the position of the sheet just created in
    [clean_wb]. *)
Definition row_text (row : list cell_value) : string :=
  Py.join " " ((λ cell, if truthy cell then str cell else "") <$> row).

Definition write_row (new_sheet r : nat) (anonymized_row_text : string)
    (clean_wb : list new_worksheet) : list new_worksheet :=
  foldl (λ clean_wb '(c, cell_val), alter (ws_cell r c cell_val) new_sheet clean_wb)
    clean_wb (Py.enumerate 1 (Py.split anonymized_row_text)).

Definition export_rows (new_sheet : nat) (rows : list (list cell_value))
    (clean_wb : list new_worksheet) : M (list new_worksheet) :=
  for_fold (Py.enumerate 1 rows) (λ '(r, row) clean_wb,
    anonymized_row_text ← redact (row_text row);
    mret (write_row new_sheet r anonymized_row_text clean_wb)) clean_wb.

(** The sheet loop (lines 161 to 172). *)
Definition export_workbook (original_wb : list worksheet) : M (list new_worksheet) :=
  let clean_wb := remove_active Workbook in
  for_fold original_wb (λ sheet clean_wb,
    let new_sheet := length clean_wb in
    let clean_wb := create_sheet (title sheet) clean_wb in
    export_rows new_sheet (iter_rows sheet) clean_wb) clean_wb.

(** Lines 185 to 188: one slide per line, layout 5, title [line[:100]]. *)
Definition export_slides (anonymized_text : string) : list new_slide :=
  foldl (λ slides line,
    slides ++ [ {| slide_layout := 5; slide_title := Py.slice_to 100 line |} ])
    [] (Py.split_on Py.newline anonymized_text).

(** [doc.add_paragraph(line)] on the paragraphs [doc] has so far. *)
Definition add_paragraph (line : string) (doc : list string) : outcome (list string) :=
  if add_paragraph_ok E line then Done (doc ++ [line]) else Raise ValueError.

(** Lines 145 to 147: one paragraph per line, into a new document. *)
Definition export_paragraphs (anonymized_text : string) : M (list string) :=
  for_fold (Py.split_on Py.newline anonymized_text)
    (λ line doc, lift (add_paragraph line doc)) [].

Definition xlsx_mime : string :=
  "application/vnd.openxmlformats-officedocument.spreadsheetml.sheet".
Definition pptx_mime : string :=
  "application/vnd.openxmlformats-officedocument.presentationml.presentation".

(** Lines 137 to 204: the export of the cleaned file.  The [data] of a
    download button is the document as saved into the buffer (the calls
    of [save] and [seek] that follow each construction). *)
Definition export (file : uploaded_file) (anonymized_text : string) : M unit :=
  if Py.endswith (name file) ".txt" then
    emit (StDownloadButton ("⬇️ Download Cleaned TXT (" +:+ name file +:+ ")")
            (TextData anonymized_text) ("cleaned_" +:+ name file) None)
  else if Py.endswith2 (name file) ".docx" ".DOCX" then
    doc ← export_paragraphs anonymized_text;
    emit (StDownloadButton ("⬇️ Download Cleaned DOCX (" +:+ name file +:+ ")")
            (DocxData doc) ("cleaned_" +:+ name file) None)
  else if Py.endswith2 (name file) ".xlsx" ".XLSX" then
    original_wb ← lift (or_raise WorkbookLoadError (load_workbook E (data file)));
    clean_wb ← export_workbook original_wb;
    emit (StDownloadButton ("⬇️ Download Cleaned XLSX (" +:+ name file +:+ ")")
            (XlsxData clean_wb) ("cleaned_" +:+ name file) (Some xlsx_mime))
  else if Py.endswith2 (name file) ".pptx" ".PPTX" then
    emit (StDownloadButton ("⬇️ Download Cleaned PPTX (" +:+ name file +:+ ")")
            (PptxData (export_slides anonymized_text)) ("cleaned_" +:+ name file)
            (Some pptx_mime))
  else if Py.startswith (type file) "image" || Py.endswith (name file) ".pdf" then
    emit (StDownloadButton ("⬇️ Download Cleaned TXT (" +:+ name file +:+ ")")
            (TextData anonymized_text) ("cleaned_" +:+ name file +:+ ".txt") None)
  else mret tt.

(** The body of [for file in uploaded_files] (lines 111 to 204). *)
Definition process_file (file : uploaded_file) : M unit :=
  original_text ← lift (extract_text E file);
  stamp ← datetime_now;
  history_append {| filename := name file; timestamp := stamp |};;
  anonymized_text ← redact original_text;
  ai_summary ← ai_summary_of anonymized_text;
  emit (StSubheader ("🤖 AI Summary for " +:+ name file));;
  emit (StTextArea "AI Summary" ai_summary);;
  export file anonymized_text.

(** Lines 40 and 41. *)
Definition init_session : M unit := λ w,
  match session_state w !! "upload_history" with
  | Some _ => (Done tt, w)
  | None =>
      (Done tt,
       {| session_state := <["upload_history" := []]> (session_state w);
          trace := trace w; clock := clock w; llm_calls := llm_calls w |})
  end.

(** [str(i)] for a position of [enumerate]. *)
Definition str_of_nat (i : nat) : string := Py.str_of_int (Z.of_nat i).

Definition history_line (i : nat) (entry : upload_record) : string :=
  "**" +:+ str_of_nat i +:+ ". " +:+ filename entry +:+ "** — uploaded at *"
  +:+ timestamp entry +:+ "*".

(** Lines 207 to 209. *)
Definition display_history : M unit :=
  emit (StSubheader "📜 Upload History");;
  h ← history_get;
  for_each (Py.enumerate 1 (reverse h)) (λ '(i, entry),
    emit (StWrite (history_line i entry))).

(** One run of the script on the files of the uploader.  The page
    configuration and the style sheet, which carry no content, are left
    out.  With files to process the language model is built first (lines
    106 and 107): [GroqLLM(api_key=...)] raises when the key is not set;
    the model and its memory are then behind [chain_run]. *)
Definition main (uploaded_files : list uploaded_file) : M unit :=
  emit (StTitle "📄 File Analyzer with AI");;
  init_session;;
  match uploaded_files with
  | _ :: _ =>
      lift (or_raise ValidationError (groq_api_key E));;
      for_each uploaded_files process_file
  | [] => mret tt
  end;;
  display_history.

End Cleanser.

(** ** [File_analyser.py]: the single-file pipeline *)

Section Analyser.
Context (E : externals).

(** The Groq completion of lines 145 to 153. *)
Definition groq_call (anonymized : string) : M completion :=
  emit (CallGroq ("Summarize and analyze this text:" +:+ String Py.newline (String Py.newline anonymized)));;
  mret (groq_complete E anonymized).

Definition insight_box (ai_response : string) : string :=
  "<div style='background-color:#161B22;padding:15px;border-radius:10px;color:#C9D1D9'>"
  +:+ ai_response +:+ "</div>".

(** The text of line 159 for an exception whose message is [e]. *)
Definition groq_error_text (e : string) : string :=
  "Groq API error: " +:+ e +:+ String Py.newline
    "Make sure you are using a valid model and your API key is correct.".

(** Lines 123 to 163, entered with the extracted [text].  In the [try]
    of lines 144 to 159 the completion is the call that can raise. *)
Definition analyser_show (text : string) : M unit :=
  if Py.nonempty (Py.strip text) then
    emit (StSubheader "📜 Extracted Text");;
    emit (StTextArea "Raw Content" text);;
    anonymized ← redact E text;
    emit (StSubheader "🔒 Anonymized Text");;
    emit (StTextArea "Cleansed Output" anonymized);;
    emit (StDownloadButton "⬇️ Download Cleaned Text" (TextData anonymized)
            "cleaned_output.txt" None);;
    if from_option Py.nonempty false (groq_api_key E) then
      emit (StSubheader "🤖 AI Insights (Groq)");;
      completion ← groq_call anonymized;
      match completion with
      | Answer ai_response => emit (StMarkdown (insight_box ai_response))
      | Failed e => emit (StError (groq_error_text e))
      end
    else emit (StInfo "No GROQ_API_KEY found. Please set it to enable AI insights.")
  else emit (StWarning "⚠️ No text could be extracted from this file.").

(** One run of the script.  After the title the Groq client is built
    (lines 57 and 58): [Groq(api_key=None)] raises when the key is not
    set.  Lines 75 to 120 are the branches of [extract_text], statement
    for statement; with no file uploaded [text] stays empty.  The page
    configuration, the style sheet and the logo are left out. *)
Definition analyser_main (uploaded_file : option uploaded_file) : M unit :=
  emit (StTitle "📄 VIT AP Automated File Cleansing & Analysis");;
  lift (or_raise GroqError (groq_api_key E));;
  match uploaded_file with
  | Some file =>
      emit (StSuccess ("✅ File uploaded: " +:+ name file));;
      text ← lift (extract_text E file);
      analyser_show text
  | None => mret tt
  end.

End Analyser.

(** ** Reference views and sample inputs *)

(** Concatenation of a list of strings, in order. *)
Definition flat (parts : list string) : string := foldr String.append "" parts.

(** The flattened view the specification describes for a spreadsheet: the
    cells of a row joined by a space (a null cell has no text, every other
    cell its [str]), the rows joined by a newline, the sheets
    concatenated. *)
Definition spec_cell_text (v : cell_value) : string :=
  match v with VNone => "" | _ => str v end.

Definition spec_flat_view (workbook : list worksheet) : string :=
  flat ((λ sheet,
    Py.join (String Py.newline "")
      ((λ row, Py.join " " (spec_cell_text <$> row)) <$> iter_rows sheet)) <$> workbook).

(** The text the extraction gives for a word-processing document: the
    paragraphs, each followed by a newline, then the tables, each cell
    followed by a space and each row by a newline. *)
Definition paragraph_text (doc : docx_document) : string :=
  flat ((λ para, para +:+ String Py.newline "") <$> paragraphs doc).

Definition table_text (doc : docx_document) : string :=
  flat ((λ table,
    flat ((λ row, flat ((λ cell, cell +:+ " ") <$> row) +:+ String Py.newline "") <$> table))
    <$> tables doc).

(** The text the extraction gives for a spreadsheet: per row, the [str]
    of each cell with a true truth value followed by a space, then a
    newline. *)
Definition row_view (row : list cell_value) : string :=
  flat ((λ cell, str cell +:+ " ") <$> filter (λ cell, truthy cell = true) row)
  +:+ String Py.newline "".

Definition sheet_view (sheet : worksheet) : string := flat (row_view <$> iter_rows sheet).

(** The token the export stores in column [c] of a row (columns count
    from one). *)
Definition token_at (tokens : list string) (c : nat) : option string :=
  match c with
  | S c' => tokens !! c'
  | 0 => None
  end.

(** What the export leaves in cell (r, c) of a sheet rebuilt from [rows]:
    the c-th token of the redacted line of the r-th row, both counted from
    one; nothing anywhere else. *)
Definition expected_cell (E : externals) (rows : list (list cell_value))
    (r c : nat) : option string :=
  match r with
  | S r' => row ← rows !! r'; token_at (Py.split (redacted E (row_text row))) c
  | 0 => None
  end.

(** The row and cell loops of the export run on one sheet of its own:
    the tokens of each redacted line are stored at (r, 1), (r, 2), ... *)
Definition write_cells (r : nat) (tokens : list string) (ws : new_worksheet) : new_worksheet :=
  foldl (λ ws '(c, cell_val), ws_cell r c cell_val ws) ws (Py.enumerate 1 tokens).

Definition rebuilt_sheet (E : externals) (sheet : worksheet) : new_worksheet :=
  foldl (λ ws '(r, row), write_cells r (Py.split (redacted E (row_text row))) ws)
    {| ws_title := title sheet; ws_cells := ∅ |} (Py.enumerate 1 (iter_rows sheet)).

(** The engine calls of the row pass over one workbook, in order. *)
Definition row_calls (E : externals) (row : list cell_value) : list event :=
  [ CallAnalyze (row_text row); CallAnonymize (row_text row) (analyze E (row_text row)) ].

Definition workbook_calls (E : externals) (wb : list worksheet) : list event :=
  mjoin ((λ sheet, mjoin (row_calls E <$> iter_rows sheet)) <$> wb).

(** What [process_file] records for a file before the export: the
    document-level redaction, the summary call, and the summary shown
    ([n] is the number of summary calls made before). *)
Definition shown_summary (E : externals) (n : nat) (text : string) : string :=
  default "AI summary unavailable." (chain_run E n (redacted E text)).

Definition head_events (E : externals) (n : nat) (file : uploaded_file)
    (text : string) : list event :=
  [ CallAnalyze text; CallAnonymize text (analyze E text);
    CallChainRun (redacted E text);
    StSubheader ("🤖 AI Summary for " +:+ name file);
    StTextArea "AI Summary" (shown_summary E n text) ].


(** The history only grows: what was recorded stays, in place. *)
Definition grows (w w' : world) : Prop :=
  upload_history w `prefix_of` upload_history w'.

Definition append_only {A} (m : M A) : Prop := ∀ w, grows w (m w).2.

(** The lines of the history display for a history [h]: newest first,
    numbered from one. *)
Definition history_lines (h : list upload_record) : list event :=
  imap (λ i entry, StWrite (history_line (S i) entry)) (reverse h).


(** A line read as token, gap, token, gap, ...: each pair is a token and
    the whitespace after it. *)
Fixpoint weave (pairs : list (string * string)) : string :=
  match pairs with
  | [] => ""
  | (token, gap) :: pairs' => token +:+ gap +:+ weave pairs'
  end.

(** Every token is non-empty and free of whitespace, every gap is
    whitespace, and only the last gap may be empty. *)
Fixpoint spaced (pairs : list (string * string)) : Prop :=
  match pairs with
  | [] => True
  | (token, gap) :: pairs' =>
      Py.nonempty token = true
      ∧ Py.forallb_str (λ c, negb (Py.isspace c)) token = true
      ∧ Py.forallb_str Py.isspace gap = true
      ∧ (pairs' ≠ [] → Py.nonempty gap = true)
      ∧ spaced pairs'
  end.

(** The characters XML text can hold, among the code points below 256:
    everything from the space on, and tab, newline and carriage return. *)
Definition xml_char (c : ascii) : bool :=
  let n := nat_of_ascii c in
  (32 <=? n) || (n =? 9) || (n =? 10) || (n =? 13).

(** A small environment for examples.  The detector knows one name; the
    anonymizer replaces each span, last first, by its entity type in angle
    brackets; every parser accepts every non-empty file and returns a
    fixed document; the summarizer fails on every second call; the Groq
    completion always fails; a paragraph is accepted when all its
    characters are XML characters. *)
Module Sample.

Definition find_name (text : string) : list recognizer_result :=
  match String.index 0 "John Smith" text with
  | Some i => [ {| entity_type := "PERSON"; span_start := i; span_end := i + 10 |} ]
  | None => []
  end.

Definition replace_spans (text : string) (results : list recognizer_result) : string :=
  foldr (λ r text,
    String.substring 0 (span_start r) text +:+ "<" +:+ entity_type r +:+ ">"
    +:+ String.substring (span_end r) (String.length text - span_end r) text)
    text results.

Definition doc : docx_document :=
  {| paragraphs := ["Dear John Smith,"; "hello"];
     tables := [ [ ["a"; "b"]; ["c"; "d"] ] ] |}.

Definition workbook : list worksheet :=
  [ {| title := "People"; iter_rows := [ [VStr "John"; VNone; VStr "Smith"];
                                         [VStr "John"; VStr "Smith"; VInt 42] ] |};
    {| title := "Totals"; iter_rows := [ [VInt 0; VStr ""; VStr "x y"] ] |} ].

Definition slides : list slide_shapes := [ [Some "Title"; None]; [Some "Body"] ].

Definition parse {A} (a : A) (bytes : list Byte.byte) : option A :=
  match bytes with [] => None | _ => Some a end.

Definition env : externals :=
  {| decode_utf8 := λ bytes, Some (String.string_of_list_byte bytes);
     fitz_open := parse ["page one"; "page two"];
     docx_Document := parse doc;
     load_workbook := parse workbook;
     pptx_Presentation := parse slides;
     image_to_string := parse "scanned";
     analyze := find_name;
     anonymize := replace_spans;
     now := λ n, "2024-01-01 00:00:0" +:+ Py.str_of_int (Z.of_nat n);
     chain_run := λ n text, if Nat.even n then None else Some ("Summary: " +:+ text);
     groq_api_key := Some "key";
     groq_complete := λ _, Failed "Connection error.";
     add_paragraph_ok := Py.forallb_str xml_char |}.

Definition bytes : list Byte.byte := String.list_byte_of_string "John Smith 0".

Definition file (name type : string) : uploaded_file :=
  {| name := name; type := type; data := bytes |}.

(** A text file that holds three spaces. *)
Definition blank : uploaded_file :=
  {| name := "blank.txt"; type := "text/plain";
     data := String.list_byte_of_string "   " |}.

(** A text with a form feed, uploaded under a word-processing name. *)
Definition page : uploaded_file :=
  {| name := "page.docx"; type := "text/plain";
     data := String.list_byte_of_string ("one" +:+ String (ascii_of_nat 12) "two") |}.

Definition docx_mime : string :=
  "application/vnd.openxmlformats-officedocument.wordprocessingml.document".

Definition fresh : world :=
  {| session_state := ∅; trace := []; clock := 0; llm_calls := 0 |}.

(** A session whose history exists and is empty. *)
Definition started : world :=
  {| session_state := {["upload_history" := []]}; trace := []; clock := 0; llm_calls := 0 |}.

End Sample.

(** ** [app.py]: the single-file pipeline without the AI section *)

Section App.
Context (E : externals).

(** Lines 75 to 93, entered with the extracted [text]. *)
Definition app_show (text : string) : M unit :=
  if Py.nonempty (Py.strip text) then
    emit (StSubheader "📜 Extracted Text");;
    emit (StTextArea "Raw Content" text);;
    anonymized ← redact E text;
    emit (StSubheader "🔒 Anonymized Text");;
    emit (StTextArea "Cleansed Output" anonymized);;
    emit (StDownloadButton "⬇️ Download Cleaned Text" (TextData anonymized)
            "cleaned_output.txt" None)
  else emit (StWarning "⚠️ No text could be extracted from this file.").

(** One run of the script; lines 27 to 72 are the branches of
    [extract_text], statement for statement. *)
Definition app_main (uploaded_file : option uploaded_file) : M unit :=
  emit (StTitle "📄 Automated File Cleansing & Analysis");;
  match uploaded_file with
  | Some file =>
      emit (StSuccess ("✅ File uploaded: " +:+ name file));;
      text ← lift (extract_text E file);
      app_show text
  | None => mret tt
  end.

End App.

(** ** Further reference views *)

(** A text that holds no newline. *)
Definition newline_free (s : string) : Prop := Py.count_char Py.newline s = 0.

(** A non-empty text without whitespace. *)
Definition is_token (t : string) : bool :=
  Py.nonempty t && Py.forallb_str (λ c, negb (Py.isspace c)) t.

(** The rows of the tables of a document, each as the line the
    extraction makes of it: every cell followed by a space. *)
Definition table_lines (doc : docx_document) : list string :=
  mjoin ((λ table, (λ row, flat ((λ cell, cell +:+ " ") <$> row)) <$> table) <$> tables doc).

(** The texts of the shapes that have one, slide after slide. *)
Definition shape_texts (slides : list slide_shapes) : list string :=
  mjoin (omap id <$> slides).


(** The events of the AI section of [File_analyser.py] for a redacted
    text. *)
Definition insight_events (E : externals) (anonymized : string) : list event :=
  if from_option Py.nonempty false (groq_api_key E) then
    [ StSubheader "🤖 AI Insights (Groq)";
      CallGroq ("Summarize and analyze this text:"
                +:+ String Py.newline (String Py.newline anonymized));
      match groq_complete E anonymized with
      | Answer ai_response => StMarkdown (insight_box ai_response)
      | Failed e => StError (groq_error_text e)
      end ]
  else [ StInfo "No GROQ_API_KEY found. Please set it to enable AI insights." ].

(** What both single-file pipelines show for a text that is not blank. *)
Definition shown_events (E : externals) (text : string) : list event :=
  [ StSubheader "📜 Extracted Text";
    StTextArea "Raw Content" text;
    CallAnalyze text; CallAnonymize text (analyze E text);
    StSubheader "🔒 Anonymized Text";
    StTextArea "Cleansed Output" (redacted E text);
    StDownloadButton "⬇️ Download Cleaned Text" (TextData (redacted E text))
      "cleaned_output.txt" None ].

(** A second environment for examples: as [Sample.env], but the detector
    finds nothing, the document holds no name and no key is set. *)
Module Quiet.

Definition doc : docx_document :=
  {| paragraphs := ["Agenda"; "Budget review"];
     tables := [ [ ["a"; "b"]; ["c"; "d"] ] ] |}.

Definition env : externals :=
  {| decode_utf8 := λ bytes, Some (String.string_of_list_byte bytes);
     fitz_open := Sample.parse ["page one"; "page two"];
     docx_Document := Sample.parse doc;
     load_workbook := Sample.parse Sample.workbook;
     pptx_Presentation := Sample.parse Sample.slides;
     image_to_string := Sample.parse "scanned";
     analyze := λ _, [];
     anonymize := Sample.replace_spans;
     now := λ n, "2024-01-01 00:00:0" +:+ Py.str_of_int (Z.of_nat n);
     chain_run := λ n text, Some ("Summary: " +:+ text);
     groq_api_key := None;
     groq_complete := λ anonymized, Answer ("Insights: " +:+ anonymized);
     add_paragraph_ok := Py.forallb_str xml_char |}.

(** A file without content: the text decoder accepts it, every parser
    refuses it. *)
Definition empty_file (name type : string) : uploaded_file :=
  {| name := name; type := type; data := [] |}.

End Quiet.

(** * Examples of the string functions *)

Example split_example :
  Py.split "  Alice   <EMAIL_ADDRESS> " = ["Alice"; "<EMAIL_ADDRESS>"].
Proof. reflexivity. Qed.

Example split_on_example :
  Py.split_on Py.newline (String "a" (String Py.newline (String "b" (String Py.newline "")))) = ["a"; "b"; ""].
Proof. reflexivity. Qed.

Example endswith_example :
  Py.endswith2 "report.DOCX" ".docx" ".DOCX" = true ∧ Py.endswith2 "report.Docx" ".docx" ".DOCX" = false.
Proof. split; reflexivity. Qed.

Example strip_example : Py.strip "  a b  " = "a b".
Proof. reflexivity. Qed.

Example sample_redaction :
  redacted Sample.env "Contact John Smith now" = "Contact <PERSON> now".
Proof. reflexivity. Qed.

(** * Strings *)

Lemma append_cons (c : ascii) (a b : string) : String c a +:+ b = String c (a +:+ b).
Proof. done. Qed.

Lemma append_nil_l (s : string) : "" +:+ s = s.
Proof. done. Qed.

Lemma append_nil_r (s : string) : s +:+ "" = s.
Proof. induction s as [|c s IH]; [done|]. by rewrite append_cons, IH. Qed.

Lemma append_assoc (a b c : string) : (a +:+ b) +:+ c = a +:+ b +:+ c.
Proof. induction a as [|x a IH]; [done|]. by rewrite !append_cons, IH. Qed.

(** The same, the body given as any function that appends. *)
Lemma foldl_appending {A} (step : string → A → string) (f : A → string)
    (xs : list A) (text : string) :
  (∀ t x, step t x = t +:+ f x) →
  foldl step text xs = text +:+ flat (f <$> xs).
Proof.
  intros Hstep. revert text. induction xs as [|x xs IH]; intros text; simpl.
  - by rewrite append_nil_r.
  - by rewrite IH, Hstep, append_assoc.
Qed.

Lemma rev_app_append (a b : string) : String.rev_app a b = String.rev a +:+ b.
Proof.
  unfold String.rev. revert b. induction a as [|c a IH]; intros b; simpl; [done|].
  rewrite (IH (String c "")), IH, append_assoc. done.
Qed.

Lemma rev_cons (c : ascii) (a : string) : String.rev (String c a) = String.rev a +:+ String c "".
Proof. unfold String.rev at 1. simpl. apply rev_app_append. Qed.

Lemma endswith_refl s : Py.endswith s s = true.
Proof. destruct s; cbn [Py.endswith]; by rewrite String.eqb_refl. Qed.

Lemma endswith_unfold s suf :
  Py.endswith s suf =
  if String.eqb s suf then true
  else match s with EmptyString => false | String _ s' => Py.endswith s' suf end.
Proof. by destruct s. Qed.

(** Two suffixes neither of which ends with the other never both end a
    name. *)
Lemma endswith_excl (a b s : string) :
  Py.endswith a b = false → Py.endswith b a = false →
  Py.endswith s a = true → Py.endswith s b = false.
Proof.
  intros Hab Hba.
  induction s as [|c s IH]; rewrite (endswith_unfold _ a), (endswith_unfold _ b).
  - destruct (String.eqb_spec "" a) as [<-|]; [|done]. intros _.
    destruct (String.eqb_spec "" b) as [<-|]; done.
  - destruct (String.eqb_spec (String c s) a) as [<-|Hne].
    + intros _. destruct (String.eqb_spec (String c s) b) as [<-|Hb].
      { by rewrite endswith_refl in Hab. }
      rewrite (endswith_unfold _ b) in Hab.
      by destruct (String.eqb_spec (String c s) b).
    + intros Hs. destruct (String.eqb_spec (String c s) b) as [<-|]; [|by apply IH].
      rewrite (endswith_unfold _ a) in Hba.
      destruct (String.eqb_spec (String c s) a); [done|]. congruence.
Qed.

Lemma endswith2_excl (a1 a2 b s : string) :
  Py.endswith a1 b = false → Py.endswith b a1 = false →
  Py.endswith a2 b = false → Py.endswith b a2 = false →
  Py.endswith2 s a1 a2 = true → Py.endswith s b = false.
Proof.
  intros ???? [H|H]%orb_true_iff; eauto using endswith_excl.
Qed.

Lemma endswith2_excl2 (a1 a2 b1 b2 s : string) :
  Py.endswith a1 b1 = false → Py.endswith b1 a1 = false →
  Py.endswith a2 b1 = false → Py.endswith b1 a2 = false →
  Py.endswith a1 b2 = false → Py.endswith b2 a1 = false →
  Py.endswith a2 b2 = false → Py.endswith b2 a2 = false →
  Py.endswith2 s a1 a2 = true → Py.endswith2 s b1 b2 = false.
Proof.
  intros. unfold Py.endswith2 at 1. apply orb_false_iff.
  split; [apply (endswith2_excl a1 a2 b1 s)|apply (endswith2_excl a1 a2 b2 s)]; assumption.
Qed.

Lemma split_on_go_length sep cur s :
  length (Py.split_on_go sep cur s) = S (Py.count_char sep s).
Proof.
  revert cur. induction s as [|c s IH]; intros cur; simpl; [done|].
  destruct (Ascii.eqb c sep); simpl; by rewrite IH.
Qed.

Lemma join_cons sep x y l :
  Py.join sep (x :: y :: l) = x +:+ sep +:+ Py.join sep (y :: l).
Proof. done. Qed.

(** [split_on]: the pieces joined by the separator give the text back,
    there is one piece more than separators, and no piece holds one. *)
Lemma split_on_go_join sep cur s :
  Py.join (String sep "") (Py.split_on_go sep cur s) = String.rev cur +:+ s.
Proof.
  revert cur. induction s as [|c s IH]; intros cur.
  - cbn. by rewrite append_nil_r.
  - cbn [Py.split_on_go]. destruct (Ascii.eqb_spec c sep) as [->|Hne].
    + pose proof (split_on_go_length sep "" s) as Hlen. specialize (IH "").
      destruct (Py.split_on_go sep "" s) as [|y l]; [done|].
      by rewrite join_cons, IH.
    + by rewrite IH, rev_cons, append_assoc.
Qed.

Lemma split_on_join sep s : Py.join (String sep "") (Py.split_on sep s) = s.
Proof. apply split_on_go_join. Qed.

Lemma split_on_length sep s : length (Py.split_on sep s) = S (Py.count_char sep s).
Proof. apply split_on_go_length. Qed.

Lemma count_char_append c a b :
  Py.count_char c (a +:+ b) = Py.count_char c a + Py.count_char c b.
Proof. induction a as [|d a IH]; simpl; [done|]. rewrite IH. lia. Qed.

Lemma split_on_go_pieces sep cur s :
  Py.count_char sep cur = 0 →
  Forall (λ piece, Py.count_char sep piece = 0) (Py.split_on_go sep cur s).
Proof.
  assert (Hrev : ∀ a, Py.count_char sep (String.rev a) = Py.count_char sep a).
  { induction a as [|d a IH]; [done|]. rewrite rev_cons, count_char_append, IH. simpl. lia. }
  revert cur. induction s as [|c s IH]; intros cur Hcur; simpl.
  - constructor; [by rewrite Hrev|constructor].
  - destruct (Ascii.eqb c sep) eqn:Hc.
    + constructor; [by rewrite Hrev|]. by apply IH.
    + apply IH. simpl. by rewrite Hc.
Qed.

Lemma split_on_pieces sep s :
  Forall (λ piece, Py.count_char sep piece = 0) (Py.split_on sep s).
Proof. by apply split_on_go_pieces. Qed.

(** [s[:n]] is the prefix of [s] of length [min n (len s)]. *)
Lemma slice_to_prefix n s :
  ∃ rest, s = Py.slice_to n s +:+ rest.
Proof.
  revert s. induction n as [|n IH]; intros s.
  - exists s. by destruct s.
  - destruct s as [|c s]; [by exists ""|].
    destruct (IH s) as [rest Hrest]. exists rest.
    cbn [Py.slice_to]. rewrite append_cons. by rewrite <-Hrest.
Qed.

Lemma slice_to_length n s :
  String.length (Py.slice_to n s) = n `min` String.length s.
Proof.
  revert s. induction n as [|n IH]; intros [|c s]; simpl; auto.
Qed.

(** [strip] leaves nothing exactly when every character is whitespace. *)
Lemma lstrip_empty s : Py.lstrip s = "" ↔ Py.forallb_str Py.isspace s = true.
Proof.
  induction s as [|c s IH]; simpl; [done|].
  destruct (Py.isspace c); simpl; [done|]. split; done.
Qed.

Lemma strip_empty s : Py.strip s = "" ↔ Py.forallb_str Py.isspace s = true.
Proof.
  rewrite <-lstrip_empty. unfold Py.strip, Py.rstrip. split.
  - intros H. destruct (Py.lstrip s) as [|c t] eqn:Hl; [done|]. exfalso.
    assert (Hc : Py.isspace c = false).
    { destruct s as [|d s]; [done|]. revert d Hl. induction s as [|e s IHs]; intros d; simpl.
      - destruct (Py.isspace d) eqn:Hd; [done|]. by intros [= <- <-].
      - destruct (Py.isspace d) eqn:Hd; [|by intros [= <- <-]]. apply IHs. }
    revert H. rewrite rev_cons.
    assert (Hgen : ∀ u, Py.lstrip (u +:+ String c "") ≠ "").
    { induction u as [|d u IHu]; simpl; [by rewrite Hc|]. by destruct (Py.isspace d). }
    intros H. destruct (Py.lstrip (String.rev t +:+ String c "")) eqn:Hr.
    + by apply Hgen in Hr.
    + rewrite rev_cons in H. by destruct (String.rev s0).
  - by intros ->.
Qed.

(** * More on strings: words and lines *)

Lemma flat_append (l k : list string) : flat (l ++ k) = flat l +:+ flat k.
Proof.
  induction l as [|x l IH]; [done|].
  cbn [app flat foldr]. fold (flat (l ++ k)) (flat l). by rewrite IH, append_assoc.
Qed.

Lemma flat_mjoin {A} (f : A → string) (ls : list (list A)) :
  flat ((λ l, flat (f <$> l)) <$> ls) = flat (f <$> mjoin ls).
Proof.
  induction ls as [|l ls IH]; [done|].
  cbn [fmap list_fmap mjoin list_join]. rewrite fmap_app, flat_append.
  cbn [flat foldr]. fold (flat ((λ l0, flat (f <$> l0)) <$> ls)).
  by rewrite IH.
Qed.

(** A whitespace character ends the word being read. *)
Lemma split_go_space cur a c b :
  Py.isspace c = true →
  Py.split_go cur (a +:+ String c b) = Py.split_go cur a ++ Py.split b.
Proof.
  intros Hc. revert cur. induction a as [|d a IH]; intros cur.
  - rewrite append_nil_l. cbn [Py.split_go]. by rewrite Hc.
  - rewrite append_cons. cbn [Py.split_go]. destruct (Py.isspace d).
    + by rewrite IH, app_assoc.
    + apply IH.
Qed.

Lemma split_space a c b :
  Py.isspace c = true → Py.split (a +:+ String c b) = Py.split a ++ Py.split b.
Proof. apply split_go_space. Qed.

Lemma split_leading_space c b : Py.isspace c = true → Py.split (String c b) = Py.split b.
Proof. intros Hc. unfold Py.split. cbn [Py.split_go]. by rewrite Hc. Qed.

(** The words of pieces that are each followed by a whitespace
    character are the words of the pieces. *)
Lemma split_terminated (c : ascii) (pieces : list string) (rest : string) :
  Py.isspace c = true →
  Py.split (flat ((λ s, s +:+ String c "") <$> pieces) +:+ rest)
  = mjoin (Py.split <$> pieces) ++ Py.split rest.
Proof.
  intros Hc. induction pieces as [|s pieces IH]; [done|].
  cbn [fmap list_fmap flat foldr mjoin list_join].
  fold (flat ((λ s0, s0 +:+ String c "") <$> pieces)).
  rewrite !append_assoc. change (String c "" +:+ ?x) with (String c x).
  rewrite split_space by done. rewrite IH. by rewrite app_assoc.
Qed.

(** The words of pieces joined by a space are the words of the pieces. *)
Lemma split_join_space (pieces : list string) :
  Py.split (Py.join " " pieces) = mjoin (Py.split <$> pieces).
Proof.
  induction pieces as [|x [|y pieces] IH]; [done| |].
  - cbn. by rewrite app_nil_r.
  - rewrite join_cons. change (" " +:+ ?x) with (String " " x).
    rewrite split_space by done. by rewrite IH.
Qed.

Lemma forallb_str_append p a b :
  Py.forallb_str p (a +:+ b) = Py.forallb_str p a && Py.forallb_str p b.
Proof.
  induction a as [|c a IH]; [done|].
  rewrite append_cons. cbn [Py.forallb_str]. by rewrite IH, andb_assoc.
Qed.

Lemma forallb_str_rev p a : Py.forallb_str p (String.rev a) = Py.forallb_str p a.
Proof.
  induction a as [|c a IH]; [done|].
  rewrite rev_cons, forallb_str_append, IH. cbn [Py.forallb_str].
  by rewrite andb_true_r, andb_comm.
Qed.

Lemma nonempty_rev_cons c a : Py.nonempty (String.rev (String c a)) = true.
Proof. rewrite rev_cons. by destruct (String.rev a). Qed.

(** Every word that [split] returns is non-empty and free of
    whitespace. *)
Lemma split_go_tokens cur s :
  (∀ x, cur = Some x →
        Py.nonempty x = true ∧ Py.forallb_str (λ c, negb (Py.isspace c)) x = true) →
  Forall (λ t, is_token t = true) (Py.split_go cur s).
Proof.
  assert (Hcur : ∀ cur : option string,
    (∀ x, cur = Some x →
          Py.nonempty x = true ∧ Py.forallb_str (λ c, negb (Py.isspace c)) x = true) →
    Forall (λ t, is_token t = true) (option_list (String.rev <$> cur))).
  { intros [x|] Hx; [|constructor]. destruct (Hx x eq_refl) as [Hn Hf].
    constructor; [|constructor]. unfold is_token. rewrite forallb_str_rev, Hf.
    destruct x as [|c x]; [done|]. by rewrite nonempty_rev_cons. }
  revert cur. induction s as [|c s IH]; intros cur Hx; cbn [Py.split_go].
  - by apply Hcur.
  - destruct (Py.isspace c) eqn:Hc.
    + apply Forall_app. split; [by apply Hcur|]. by apply IH.
    + apply IH. intros x [= <-]. split; [done|]. cbn [Py.forallb_str].
      rewrite Hc. destruct cur as [x|]; [|done]. by destruct (Hx x eq_refl).
Qed.

Lemma split_tokens s : Forall (λ t, is_token t = true) (Py.split s).
Proof. by apply split_go_tokens. Qed.

(** A token is its own single word. *)
Lemma split_go_token cur s :
  Py.forallb_str (λ c, negb (Py.isspace c)) s = true →
  Py.split_go (Some cur) s = [String.rev cur +:+ s].
Proof.
  revert cur. induction s as [|c s IH]; intros cur; cbn [Py.split_go Py.forallb_str].
  - by rewrite append_nil_r.
  - intros [Hc Hs]%andb_true_iff. apply negb_true_iff in Hc. rewrite Hc. cbn [default].
    by rewrite IH, rev_cons, append_assoc.
Qed.

Lemma split_token t : is_token t = true → Py.split t = [t].
Proof.
  unfold is_token. intros [Hn Hf]%andb_true_iff. destruct t as [|c t]; [done|].
  cbn [Py.forallb_str] in Hf. apply andb_true_iff in Hf as [Hc Hf].
  apply negb_true_iff in Hc. unfold Py.split. cbn [Py.split_go]. rewrite Hc.
  cbn [default]. by rewrite split_go_token.
Qed.

(** A newline-free piece followed by a newline is one line. *)
Lemma split_on_go_line sep cur p rest :
  Py.count_char sep p = 0 →
  Py.split_on_go sep cur (p +:+ String sep rest)
  = (String.rev cur +:+ p) :: Py.split_on_go sep "" rest.
Proof.
  revert cur. induction p as [|d p IH]; intros cur.
  - intros _. rewrite append_nil_l, append_nil_r. cbn [Py.split_on_go].
    by rewrite Ascii.eqb_refl.
  - cbn [Py.count_char]. rewrite append_cons. cbn [Py.split_on_go].
    destruct (Ascii.eqb d sep); [done|]. intros Hp.
    rewrite IH by done. by rewrite rev_cons, append_assoc.
Qed.

Lemma split_on_lines sep (ps : list string) rest :
  Forall (λ p, Py.count_char sep p = 0) ps →
  Py.split_on sep (flat ((λ p, p +:+ String sep "") <$> ps) +:+ rest)
  = ps ++ Py.split_on sep rest.
Proof.
  intros Hps. induction Hps as [|p ps Hp _ IH]; [done|].
  cbn [fmap list_fmap flat foldr]. fold (flat ((λ p0, p0 +:+ String sep "") <$> ps)).
  rewrite !append_assoc. change (String sep "" +:+ ?x) with (String sep x).
  unfold Py.split_on at 1. rewrite split_on_go_line by done.
  fold (Py.split_on sep (flat ((λ p0, p0 +:+ String sep "") <$> ps) +:+ rest)).
  by rewrite IH.
Qed.

(** Whitespace in front of a text holds no word. *)
Lemma split_blank_prefix gap s :
  Py.forallb_str Py.isspace gap = true → Py.split (gap +:+ s) = Py.split s.
Proof.
  induction gap as [|c gap IH]; [done|]. cbn [Py.forallb_str].
  intros [Hc Hgap]%andb_true_iff. rewrite append_cons, split_leading_space by done.
  by apply IH.
Qed.

(** [split] reads a line of tokens and gaps as its tokens. *)
Lemma split_of_weave pairs : spaced pairs → Py.split (weave pairs) = pairs.*1.
Proof.
  induction pairs as [|[token gap] pairs IH]; [done|].
  cbn [spaced weave]. intros (Hn & Hf & Hgap & Hlast & Hrest).
  assert (Htok : Py.split token = [token]).
  { apply split_token. unfold is_token. by rewrite Hn, Hf. }
  rewrite fmap_cons. cbn [fst]. destruct gap as [|c gap].
  - destruct pairs as [|p pairs]; [|by specialize (Hlast ltac:(done))].
    cbn [weave]. by rewrite !append_nil_r.
  - cbn [Py.forallb_str] in Hgap. apply andb_true_iff in Hgap as [Hc Hgap].
    rewrite append_cons, split_space, Htok by done.
    rewrite split_blank_prefix by done. by rewrite IH.
Qed.

(** Every line reads as a gap followed by tokens and gaps. *)
Lemma weave_exists s :
  ∃ gap pairs,
    Py.forallb_str Py.isspace gap = true ∧ spaced pairs ∧ s = gap +:+ weave pairs.
Proof.
  induction s as [|c s (gap & pairs & Hgap & Hsp & ->)].
  - by exists "", [].
  - destruct (Py.isspace c) eqn:Hc.
    { exists (String c gap), pairs. cbn [Py.forallb_str]. by rewrite Hc, Hgap. }
    destruct gap as [|d gap].
    + destruct pairs as [|[token g] pairs].
      * exists "", [(String c "", "")]. cbn. by rewrite Hc.
      * exists "", ((String c token, g) :: pairs). destruct Hsp as (Hn & Hf & Hrest).
        split; [done|]. split; [|done]. cbn [spaced Py.forallb_str Py.nonempty].
        by rewrite Hc, Hf.
    + exists "", ((String c "", String d gap) :: pairs).
      split; [done|]. split; [|done]. cbn [spaced Py.forallb_str Py.nonempty].
      rewrite Hc. by repeat split.
Qed.

(** [split] in full: a line is a gap followed by tokens and gaps, and
    [split] returns the tokens. *)
Lemma split_weave s :
  ∃ gap pairs,
    Py.forallb_str Py.isspace gap = true ∧ spaced pairs
    ∧ s = gap +:+ weave pairs ∧ Py.split s = pairs.*1.
Proof.
  destruct (weave_exists s) as (gap & pairs & Hgap & Hsp & ->).
  exists gap, pairs. repeat split; try done.
  by rewrite split_blank_prefix, split_of_weave.
Qed.

(** * Extraction *)

Section ExtractionFacts.
Context (E : externals).

Local Abbreviation nl := (String Py.newline "").

Lemma extract_docx_flat doc text :
  extract_docx doc text = text +:+ paragraph_text doc +:+ table_text doc.
Proof.
  unfold extract_docx, paragraph_text, table_text.
  rewrite (foldl_appending _ (λ para, para +:+ nl)) by done.
  rewrite <-append_assoc. apply foldl_appending. intros t table.
  apply foldl_appending. intros t' row.
  by rewrite (foldl_appending _ (λ cell, cell +:+ " ")), append_assoc.
Qed.

Lemma extract_xlsx_flat wb text :
  extract_xlsx wb text = text +:+ flat (sheet_view <$> wb).
Proof.
  unfold extract_xlsx, sheet_view. apply foldl_appending. intros t sheet.
  apply foldl_appending. intros t' row. unfold row_view.
  rewrite <-append_assoc. f_equal. clear. revert t'.
  induction row as [|cell row IH]; intros t; simpl.
  - by rewrite append_nil_r.
  - rewrite IH, filter_cons. destruct (truthy cell) eqn:Hc.
    + rewrite decide_True by done. simpl. by rewrite !append_assoc.
    + by rewrite decide_False by done.
Qed.

Lemma docx_branch file doc :
  String.eqb (type file) "text/plain" = false →
  String.eqb (type file) "application/pdf" = false →
  Py.endswith2 (name file) ".docx" ".DOCX" = true →
  docx_Document E (data file) = Some doc →
  extract_text E file = Done (paragraph_text doc +:+ table_text doc).
Proof.
  intros H1 H2 H3 H4. unfold extract_text. rewrite H1, H2, H3, H4. simpl.
  by rewrite extract_docx_flat.
Qed.

Lemma xlsx_branch file wb :
  String.eqb (type file) "text/plain" = false →
  String.eqb (type file) "application/pdf" = false →
  Py.endswith2 (name file) ".xlsx" ".XLSX" = true →
  load_workbook E (data file) = Some wb →
  extract_text E file = Done (flat (sheet_view <$> wb)).
Proof.
  intros H1 H2 H3 H4. unfold extract_text. rewrite H1, H2, H3, H4.
  rewrite (endswith2_excl2 ".xlsx" ".XLSX" ".docx" ".DOCX") by done. simpl.
  by rewrite extract_xlsx_flat.
Qed.

End ExtractionFacts.

(** * Running computations *)

Ltac run := unfold mbind, M_bind, mret, M_ret; cbn.

Lemma add_trace_nil w : add_trace [] w = w.
Proof. destruct w. unfold add_trace. simpl. by rewrite app_nil_r. Qed.

Lemma add_trace_app a b w : add_trace b (add_trace a w) = add_trace (a ++ b) w.
Proof. unfold add_trace. simpl. by rewrite app_assoc. Qed.

Lemma bind_run {A B} (m : M A) (f : A → M B) w :
  (m ≫= f) w =
  match m w with
  | (Done a, w') => f a w'
  | (Raise e, w') => (Raise e, w')
  end.
Proof. done. Qed.

Lemma bind_done {A B} (m : M A) (f : A → M B) w a w' :
  m w = (Done a, w') → (m ≫= f) w = f a w'.
Proof. intros H. by rewrite bind_run, H. Qed.

Lemma enumerate_fmap {A B} (g : A → B) (n : nat) (xs : list A) :
  (λ '(_, x), g x) <$> Py.enumerate n xs = g <$> xs.
Proof. revert n. induction xs as [|x xs IH]; intros n; simpl; [done|]. by rewrite IH. Qed.

Lemma enumerate_imap {A B} (g : nat → A → B) (n : nat) (xs : list A) :
  (λ '(i, x), g i x) <$> Py.enumerate n xs = imap (λ i, g (n + i)) xs.
Proof.
  revert n. induction xs as [|x xs IH]; intros n; simpl; [done|].
  rewrite IH, Nat.add_0_r. f_equal. apply imap_ext. intros i y _. simpl.
  f_equal. lia.
Qed.

(** A loop whose body always returns, recording events that depend on the
    element only, returns the fold of the updates and records the events
    in order. *)
Lemma for_fold_run {A S} (body : A → S → M S) (F : A → S → S) (T : A → list event)
    (xs : list A) :
  (∀ x s w, body x s w = (Done (F x s), add_trace (T x) w)) →
  ∀ s w, for_fold xs body s w
         = (Done (foldl (λ s x, F x s) s xs), add_trace (mjoin (T <$> xs)) w).
Proof.
  intros Hbody. induction xs as [|x xs IH]; intros s w; simpl.
  - by rewrite add_trace_nil.
  - rewrite (bind_done _ _ _ _ _ (Hbody x s w)), IH, add_trace_app. done.
Qed.

Lemma foldl_snoc_fmap {A B} (g : A → B) (xs : list A) (acc : list B) :
  foldl (λ acc x, acc ++ [g x]) acc xs = acc ++ (g <$> xs).
Proof.
  revert acc. induction xs as [|x xs IH]; intros acc; simpl.
  - by rewrite app_nil_r.
  - by rewrite IH, <-app_assoc.
Qed.

Section Spreadsheet.
Context (E : externals).

Lemma redact_run text w :
  redact E text w
  = (Done (redacted E text),
     add_trace [CallAnalyze text; CallAnonymize text (analyze E text)] w).
Proof. unfold redact, emit, add_trace. run. by rewrite <-app_assoc. Qed.

(** Writing through the position of the last sheet changes that sheet
    only. *)
Lemma write_row_last acc ws r text :
  write_row (length acc) r text (acc ++ [ws])
  = acc ++ [write_cells r (Py.split text) ws].
Proof.
  unfold write_row, write_cells. generalize 1 as c0. revert ws.
  induction (Py.split text) as [|v vs IH]; intros ws c0; simpl; [done|].
  rewrite alter_app_r_alt by done. rewrite Nat.sub_diag. simpl. apply IH.
Qed.

Lemma export_rows_run acc ws rows w :
  export_rows E (length acc) rows (acc ++ [ws]) w
  = (Done (acc ++ [foldl (λ ws '(r, row),
               write_cells r (Py.split (redacted E (row_text row))) ws)
             ws (Py.enumerate 1 rows)]),
     add_trace (mjoin (row_calls E <$> rows)) w).
Proof.
  unfold export_rows.
  rewrite (for_fold_run _
    (λ '(r, row) wb, write_row (length acc) r (redacted E (row_text row)) wb)
    (λ '(_, row), row_calls E row)).
  - rewrite enumerate_fmap. f_equal. f_equal. generalize 1 as r0. revert ws.
    induction rows as [|row rows IH]; intros ws r0; simpl; [done|].
    by rewrite write_row_last, IH.
  - intros [r row] wb w'. by rewrite (bind_done _ _ _ _ _ (redact_run _ _)).
Qed.

Lemma export_workbook_run wb w :
  export_workbook E wb w
  = (Done (rebuilt_sheet E <$> wb), add_trace (workbook_calls E wb) w).
Proof.
  unfold export_workbook, workbook_calls.
  rewrite (for_fold_run _ (λ sheet acc, acc ++ [rebuilt_sheet E sheet])
    (λ sheet, mjoin (row_calls E <$> iter_rows sheet))).
  - by rewrite foldl_snoc_fmap.
  - intros sheet acc w'. unfold create_sheet. by rewrite export_rows_run.
Qed.

End Spreadsheet.

(** * Cells of a rebuilt sheet *)

Lemma write_cells_title r tokens ws : ws_title (write_cells r tokens ws) = ws_title ws.
Proof.
  unfold write_cells. generalize 1 as c0. revert ws.
  induction tokens as [|v vs IH]; intros ws c0; simpl; [done|]. by rewrite IH.
Qed.

Lemma write_from_lookup r c0 tokens ws r' c' :
  ws_cells (foldl (λ ws '(c, cell_val), ws_cell r c cell_val ws) ws (Py.enumerate c0 tokens))
    !! (r', c')
  = if decide (r' = r ∧ c0 ≤ c')
    then from_option Some (ws_cells ws !! (r', c')) (tokens !! (c' - c0))
    else ws_cells ws !! (r', c').
Proof.
  revert ws c0. induction tokens as [|v vs IH]; intros ws c0; simpl.
  - by case_decide.
  - rewrite IH. simpl. rewrite lookup_insert.
    repeat case_decide; destruct_and?; simplify_eq; try lia; try done.
    + replace (c' - c0) with (S (c' - S c0)) by lia. done.
    + by rewrite Nat.sub_diag.
    + assert (c0 = c') by lia. congruence.
Qed.

Lemma write_cells_lookup r tokens ws r' c' :
  ws_cells (write_cells r tokens ws) !! (r', c')
  = if decide (r' = r)
    then from_option Some (ws_cells ws !! (r', c')) (token_at tokens c')
    else ws_cells ws !! (r', c').
Proof.
  unfold write_cells. rewrite write_from_lookup.
  destruct c' as [|c']; simpl; repeat case_decide; try done; try (destruct_and?; lia).
  by rewrite Nat.sub_0_r.
Qed.

Section Rows.
Context (E : externals).

Local Abbreviation tokens_of row := (Py.split (redacted E (row_text row))).

Lemma rows_from_title r0 rows ws :
  ws_title (foldl (λ ws '(r, row), write_cells r (tokens_of row) ws) ws (Py.enumerate r0 rows))
  = ws_title ws.
Proof.
  revert ws r0. induction rows as [|row rows IH]; intros ws r0; simpl; [done|].
  by rewrite IH, write_cells_title.
Qed.

Lemma rows_from_lookup r0 rows ws r' c' :
  ws_cells (foldl (λ ws '(r, row), write_cells r (tokens_of row) ws) ws (Py.enumerate r0 rows))
    !! (r', c')
  = from_option Some (ws_cells ws !! (r', c'))
      (if decide (r0 ≤ r') then row ← rows !! (r' - r0); token_at (tokens_of row) c'
       else None).
Proof.
  revert ws r0. induction rows as [|row rows IH]; intros ws r0; simpl.
  - by case_decide.
  - rewrite IH, write_cells_lookup.
    repeat case_decide; simplify_eq; try lia; simpl.
    + by rewrite Nat.sub_diag.
    + replace (r' - r0) with (S (r' - S r0)) by lia. done.
    + done.
Qed.

Lemma rebuilt_sheet_title sheet : ws_title (rebuilt_sheet E sheet) = title sheet.
Proof. unfold rebuilt_sheet. by rewrite rows_from_title. Qed.

Lemma rebuilt_sheet_lookup sheet r c :
  ws_cells (rebuilt_sheet E sheet) !! (r, c) = expected_cell E (iter_rows sheet) r c.
Proof.
  unfold rebuilt_sheet. rewrite rows_from_lookup. cbn [ws_cells].
  rewrite lookup_empty. unfold expected_cell. destruct r as [|r].
  - by rewrite decide_False by lia.
  - rewrite decide_True by lia. replace (S r - 1) with r by lia.
    by destruct (iter_rows sheet !! r ≫= _).
Qed.

End Rows.

(** * The export and the per-file body *)

Section ExportFacts.
Context (E : externals).

Lemma emit_run e w : emit e w = (Done tt, add_trace [e] w).
Proof. done. Qed.

Lemma export_slides_fmap text :
  export_slides text
  = (λ line, {| slide_layout := 5; slide_title := Py.slice_to 100 line |})
      <$> Py.split_on Py.newline text.
Proof. unfold export_slides. by rewrite foldl_snoc_fmap. Qed.


(** The paragraph loop returns the lines when the library accepts each
    of them, and raises at the first it refuses. *)
Lemma add_paragraphs_run lines doc w :
  for_fold lines (λ line doc, lift (add_paragraph E line doc)) doc w
  = (if forallb (add_paragraph_ok E) lines then Done (doc ++ lines) else Raise ValueError, w).
Proof.
  revert doc. induction lines as [|line lines IH]; intros doc; cbn [for_fold forallb].
  - by rewrite app_nil_r.
  - rewrite bind_run. unfold lift at 1, add_paragraph at 1.
    destruct (add_paragraph_ok E line); [|done].
    cbn [andb]. by rewrite IH, <-app_assoc.
Qed.

Lemma export_paragraphs_run text w :
  export_paragraphs E text w
  = (if forallb (add_paragraph_ok E) (Py.split_on Py.newline text)
     then Done (Py.split_on Py.newline text) else Raise ValueError, w).
Proof. apply add_paragraphs_run. Qed.

Lemma docx_not_txt s : Py.endswith2 s ".docx" ".DOCX" = true → Py.endswith s ".txt" = false.
Proof. by apply endswith2_excl. Qed.

(** The export for a word-processing name: the download when every line
    is accepted, [ValueError] and nothing shown otherwise. *)
Lemma export_docx_run file text w :
  Py.endswith2 (name file) ".docx" ".DOCX" = true →
  export E file text w
  = if forallb (add_paragraph_ok E) (Py.split_on Py.newline text)
    then (Done tt,
          add_trace
            [StDownloadButton ("⬇️ Download Cleaned DOCX (" +:+ name file +:+ ")")
               (DocxData (Py.split_on Py.newline text)) ("cleaned_" +:+ name file) None] w)
    else (Raise ValueError, w).
Proof.
  intros Hd. unfold export. rewrite (docx_not_txt _ Hd), Hd.
  rewrite bind_run, export_paragraphs_run.
  by destruct (forallb _ _).
Qed.

Lemma xlsx_not_txt s : Py.endswith2 s ".xlsx" ".XLSX" = true → Py.endswith s ".txt" = false.
Proof. by apply endswith2_excl. Qed.

Lemma xlsx_not_docx s :
  Py.endswith2 s ".xlsx" ".XLSX" = true → Py.endswith2 s ".docx" ".DOCX" = false.
Proof. by apply endswith2_excl2. Qed.

Lemma pptx_not_txt s : Py.endswith2 s ".pptx" ".PPTX" = true → Py.endswith s ".txt" = false.
Proof. by apply endswith2_excl. Qed.

Lemma pptx_not_docx s :
  Py.endswith2 s ".pptx" ".PPTX" = true → Py.endswith2 s ".docx" ".DOCX" = false.
Proof. by apply endswith2_excl2. Qed.

Lemma pptx_not_xlsx s :
  Py.endswith2 s ".pptx" ".PPTX" = true → Py.endswith2 s ".xlsx" ".XLSX" = false.
Proof. by apply endswith2_excl2. Qed.

Lemma export_xlsx_run file text wb w :
  Py.endswith2 (name file) ".xlsx" ".XLSX" = true →
  load_workbook E (data file) = Some wb →
  export E file text w
  = (Done tt,
     add_trace (workbook_calls E wb ++
       [StDownloadButton ("⬇️ Download Cleaned XLSX (" +:+ name file +:+ ")")
          (XlsxData (rebuilt_sheet E <$> wb)) ("cleaned_" +:+ name file)
          (Some xlsx_mime)]) w).
Proof.
  intros Hx Hload. unfold export.
  rewrite (xlsx_not_txt _ Hx), (xlsx_not_docx _ Hx), Hx, Hload.
  rewrite (bind_done _ _ w wb w) by done.
  rewrite (bind_done _ _ _ _ _ (export_workbook_run E wb w)).
  by rewrite emit_run, add_trace_app.
Qed.

Lemma export_pptx_run file text w :
  Py.endswith2 (name file) ".pptx" ".PPTX" = true →
  export E file text w
  = (Done tt,
     add_trace
       [StDownloadButton ("⬇️ Download Cleaned PPTX (" +:+ name file +:+ ")")
          (PptxData (export_slides text)) ("cleaned_" +:+ name file)
          (Some pptx_mime)] w).
Proof.
  intros Hp. unfold export.
  by rewrite (pptx_not_txt _ Hp), (pptx_not_docx _ Hp), (pptx_not_xlsx _ Hp), Hp.
Qed.



Lemma history_append_run entry h w :
  session_state w !! "upload_history" = Some h →
  history_append entry w
  = (Done tt,
     {| session_state := <["upload_history" := h ++ [entry]]> (session_state w);
        trace := trace w; clock := clock w; llm_calls := llm_calls w |}).
Proof. intros H. unfold history_append. by rewrite H. Qed.

Lemma ai_summary_run text w :
  ai_summary_of E text w
  = (Done (default "AI summary unavailable." (chain_run E (llm_calls w) text)),
     {| session_state := session_state w; trace := trace w ++ [CallChainRun text];
        clock := clock w; llm_calls := S (llm_calls w) |}).
Proof.
  unfold ai_summary_of, try_except, chain_run_call.
  by destruct (chain_run E (llm_calls w) text).
Qed.

Lemma process_file_run file text h events w :
  extract_text E file = Done text →
  session_state w !! "upload_history" = Some h →
  (∀ w1, export E file (redacted E text) w1 = (Done tt, add_trace events w1)) →
  process_file E file w
  = (Done tt,
     {| session_state :=
          <["upload_history" :=
              h ++ [ {| filename := name file; timestamp := now E (clock w) |} ]]>
            (session_state w);
        trace := trace w ++ head_events E (llm_calls w) file text ++ events;
        clock := S (clock w);
        llm_calls := S (llm_calls w) |}).
Proof.
  intros Hext Hh Hexp. unfold process_file.
  rewrite (bind_done _ _ w text w) by (unfold lift; by rewrite Hext).
  rewrite (bind_done _ _ _ _ _ (eq_refl : datetime_now E w = (_, _))).
  rewrite (bind_done _ _ _ _ _ (history_append_run _ h
    {| session_state := session_state w; trace := trace w;
       clock := S (clock w); llm_calls := llm_calls w |} Hh)).
  rewrite (bind_done _ _ _ _ _ (redact_run E text _)).
  rewrite (bind_done _ _ _ _ _ (ai_summary_run _ _)).
  rewrite (bind_done _ _ _ _ _ (emit_run _ _)).
  rewrite (bind_done _ _ _ _ _ (emit_run _ _)).
  rewrite Hexp. unfold add_trace, head_events, shown_summary. cbn.
  f_equal. f_equal. by rewrite <-!app_assoc.
Qed.

End ExportFacts.

(** * More on extraction and export *)

Lemma extract_pptx_flat slides text :
  extract_pptx slides text
  = text +:+ flat ((λ t, t +:+ String Py.newline "") <$> shape_texts slides).
Proof.
  unfold extract_pptx, shape_texts. rewrite <-flat_mjoin, <-list_fmap_compose.
  apply (foldl_appending _
    (λ slide, flat ((λ t, t +:+ String Py.newline "") <$> omap id slide))).
  intros t slide. revert t.
  induction slide as [|[s|] slide IH]; intros t; cbn.
  - by rewrite append_nil_r.
  - rewrite IH. by rewrite !append_assoc.
  - apply IH.
Qed.

Lemma mjoin_fmap_fmap {A B} (f : A → B) (ls : list (list A)) :
  mjoin ((λ l, f <$> l) <$> ls) = f <$> mjoin ls.
Proof.
  induction ls as [|l ls IH]; [done|].
  rewrite fmap_cons.
  change (mjoin (l :: ls)) with (l ++ mjoin ls).
  change (mjoin ((f <$> l) :: ?t)) with ((f <$> l) ++ mjoin t).
  by rewrite fmap_app, IH.
Qed.

Lemma table_text_lines doc :
  table_text doc = flat ((λ line, line +:+ String Py.newline "") <$> table_lines doc).
Proof.
  unfold table_text, table_lines.
  rewrite (flat_mjoin (λ row, flat ((λ cell, cell +:+ " ") <$> row) +:+ String Py.newline "")).
  by rewrite mjoin_fmap_fmap, <-list_fmap_compose.
Qed.

(** The text of a document whose paragraphs and table rows hold no
    newline splits back into exactly those, and one empty line. *)
Lemma docx_text_lines doc :
  Forall newline_free (paragraphs doc) →
  Forall newline_free (table_lines doc) →
  Py.split_on Py.newline (paragraph_text doc +:+ table_text doc)
  = paragraphs doc ++ table_lines doc ++ [""].
Proof.
  intros Hp Ht. unfold paragraph_text. rewrite table_text_lines.
  rewrite <-flat_append, <-fmap_app.
  rewrite <-(append_nil_r (flat _)), split_on_lines.
  - by rewrite <-app_assoc.
  - by apply Forall_app.
Qed.

Section MoreExport.
Context (E : externals).

Lemma pptx_branch file slides :
  String.eqb (type file) "text/plain" = false →
  String.eqb (type file) "application/pdf" = false →
  Py.endswith2 (name file) ".pptx" ".PPTX" = true →
  pptx_Presentation E (data file) = Some slides →
  extract_text E file
  = Done (flat ((λ t, t +:+ String Py.newline "") <$> shape_texts slides)).
Proof.
  intros H1 H2 H3 H4. unfold extract_text.
  rewrite H1, H2, (pptx_not_docx _ H3), (pptx_not_xlsx _ H3), H3, H4. cbn.
  by rewrite extract_pptx_flat.
Qed.

(** [process_file] up to the export: the record, the document-level
    redaction and the summary are done, then the export runs. *)
Lemma process_file_to_export file text h w :
  extract_text E file = Done text →
  session_state w !! "upload_history" = Some h →
  process_file E file w
  = export E file (redacted E text)
      {| session_state :=
           <["upload_history" :=
               h ++ [ {| filename := name file; timestamp := now E (clock w) |} ]]>
             (session_state w);
         trace := trace w ++ head_events E (llm_calls w) file text;
         clock := S (clock w);
         llm_calls := S (llm_calls w) |}.
Proof.
  intros Hext Hh. unfold process_file.
  rewrite (bind_done _ _ w text w) by (unfold lift; by rewrite Hext).
  rewrite (bind_done _ _ _ _ _ (eq_refl : datetime_now E w = (_, _))).
  rewrite (bind_done _ _ _ _ _ (history_append_run _ h
    {| session_state := session_state w; trace := trace w;
       clock := S (clock w); llm_calls := llm_calls w |} Hh)).
  rewrite (bind_done _ _ _ _ _ (redact_run E text _)).
  rewrite (bind_done _ _ _ _ _ (ai_summary_run _ _ _)).
  rewrite (bind_done _ _ _ _ _ (emit_run _ _)).
  rewrite (bind_done _ _ _ _ _ (emit_run _ _)).
  f_equal. unfold add_trace, head_events, shown_summary. cbn.
  f_equal. by rewrite <-!app_assoc.
Qed.


End MoreExport.


(** * The batch and the history *)

Lemma for_each_emit {A} (g : A → event) (xs : list A) w :
  for_each xs (λ x, emit (g x)) w = (Done tt, add_trace (g <$> xs) w).
Proof.
  revert w. induction xs as [|x xs IH]; intros w; simpl.
  - by rewrite add_trace_nil.
  - rewrite (bind_done _ _ _ _ _ (emit_run _ _)), IH. by rewrite add_trace_app.
Qed.

Lemma for_each_ext {A} (f g : A → M unit) (xs : list A) :
  (∀ x, f x = g x) → for_each xs f = for_each xs g.
Proof. intros H. induction xs as [|x xs IH]; simpl; [done|]. by rewrite H, IH. Qed.

Lemma trace_add_trace es w : trace (add_trace es w) = trace w ++ es.
Proof. done. Qed.

Lemma upload_history_add_trace es w : upload_history (add_trace es w) = upload_history w.
Proof. done. Qed.


Section Batch.
Context (E : externals).

Lemma display_history_run h w :
  session_state w !! "upload_history" = Some h →
  display_history w
  = (Done tt, add_trace (StSubheader "📜 Upload History" :: history_lines h) w).
Proof.
  intros Hh. unfold display_history.
  rewrite (bind_done _ _ _ _ _ (emit_run _ _)).
  rewrite (bind_done _ _ _ h (add_trace [StSubheader "📜 Upload History"] w))
    by (unfold history_get; cbn; by rewrite Hh).
  rewrite (for_each_ext _ (λ x, emit ((λ '(i, entry), StWrite (history_line i entry)) x)))
    by (by intros []).
  rewrite for_each_emit.
  rewrite add_trace_app. unfold history_lines.
  by rewrite (enumerate_imap (λ i entry, StWrite (history_line i entry))).
Qed.

Lemma init_session_run w :
  ∃ w0, init_session w = (Done tt, w0)
        ∧ session_state w0 !! "upload_history" = Some (upload_history w)
        ∧ trace w0 = trace w ∧ clock w0 = clock w ∧ llm_calls w0 = llm_calls w.
Proof.
  unfold init_session, upload_history.
  destruct (session_state w !! "upload_history") as [h|] eqn:Hh.
  - by exists w.
  - eexists. split; [done|]. cbn. by rewrite lookup_insert_eq.
Qed.




(** With files to process and no key the run raises before any file is
    touched. *)
Lemma main_without_key file files w :
  groq_api_key E = None →
  ∃ w0, main E (file :: files) w = (Raise ValidationError, w0)
        ∧ trace w0 = trace w ++ [StTitle "📄 File Analyzer with AI"]
        ∧ upload_history w0 = upload_history w
        ∧ clock w0 = clock w ∧ llm_calls w0 = llm_calls w.
Proof.
  intros Hkey. unfold main.
  rewrite (bind_done _ _ _ _ _ (emit_run _ _)).
  destruct (init_session_run (add_trace [StTitle "📄 File Analyzer with AI"] w))
    as (w0 & Hinit & Hh0 & Htr0 & Hc0 & Hl0).
  rewrite (bind_done _ _ _ _ _ Hinit).
  exists w0. rewrite !bind_run. unfold lift. rewrite Hkey. cbn [or_raise].
  split; [done|]. split; [by rewrite Htr0|]. split; [|done].
  unfold upload_history at 1. by rewrite Hh0.
Qed.

End Batch.

(** * The history is append-only, whatever happens *)

Lemma grows_refl w : grows w w.
Proof. by unfold grows. Qed.

Lemma grows_trans w1 w2 w3 : grows w1 w2 → grows w2 w3 → grows w1 w3.
Proof. unfold grows. by etrans. Qed.

Lemma append_only_ret {A} (a : A) : append_only (mret a).
Proof. intros w. apply grows_refl. Qed.

Lemma append_only_bind {A B} (m : M A) (f : A → M B) :
  append_only m → (∀ a, append_only (f a)) → append_only (m ≫= f).
Proof.
  intros Hm Hf w. rewrite bind_run. specialize (Hm w).
  destruct (m w) as [[a|e] w1]; [|done].
  eapply grows_trans; [exact Hm|apply Hf].
Qed.





Lemma append_only_for_fold {A S} (xs : list A) (body : A → S → M S) (s : S) :
  (∀ x s, append_only (body x s)) → append_only (for_fold xs body s).
Proof.
  intros Hbody. revert s. induction xs as [|x xs IH]; intros s; simpl.
  - apply append_only_ret.
  - by apply append_only_bind.
Qed.





Section AppendOnly.
Context (E : externals).








End AppendOnly.

(** * The claims *)



(** The row "John Smith 42" is redacted as one line and comes back as two
    cells; the row whose name is split by a null cell is not recognized. *)
Example per_row_redaction_sample :
  (λ ws, (ws_title ws,
          [ws_cells ws !! (1, 1); ws_cells ws !! (1, 2); ws_cells ws !! (1, 3)],
          [ws_cells ws !! (2, 1); ws_cells ws !! (2, 2); ws_cells ws !! (2, 3)]))
    <$> (rebuilt_sheet Sample.env <$> Sample.workbook)
  = [ ("People", [Some "John"; Some "Smith"; None], [Some "<PERSON>"; Some "42"; None]);
      ("Totals", [Some "x"; Some "y"; None], [None; None; None]) ].
Proof. by vm_compute. Qed.

(** C2.  Rebuilding a spreadsheet from an original workbook with N sheets
    gives a workbook with exactly N sheets that carry the original titles
    in the original order (the sheet a new workbook starts with is
    removed); and in each rebuilt sheet the tokens of the redacted line of
    row r fill the columns 1, 2, ... of row r from left to right, column 0
    and every position outside the rows staying empty.  The tokens are
    those of a split on whitespace: the redacted line reads as whitespace
    followed by tokens (non-empty, free of whitespace) each followed by
    whitespace (non-empty between two tokens); token k is in column k,
    and the columns after the last token are empty. *)
Theorem workbook_reconstruction (E : externals) (file : uploaded_file) (text : string)
    (wb : list worksheet) (w : world) :
  Py.endswith2 (name file) ".xlsx" ".XLSX" = true →
  load_workbook E (data file) = Some wb →
  ∃ clean_wb,
    export E file text w
    = (Done tt,
       add_trace (workbook_calls E wb ++
         [StDownloadButton ("⬇️ Download Cleaned XLSX (" +:+ name file +:+ ")")
            (XlsxData clean_wb) ("cleaned_" +:+ name file) (Some xlsx_mime)]) w)
    ∧ length clean_wb = length wb
    ∧ ws_title <$> clean_wb = title <$> wb
    ∧ ∀ i sheet, wb !! i = Some sheet →
        ∃ ws, clean_wb !! i = Some ws
          ∧ ws_title ws = title sheet
          ∧ (∀ r c, ws_cells ws !! (r, c) = expected_cell E (iter_rows sheet) r c)
          ∧ ∀ r row, iter_rows sheet !! r = Some row →
              ws_cells ws !! (S r, 0) = None
              ∧ (∀ c, ws_cells ws !! (S r, S c)
                      = Py.split (redacted E (row_text row)) !! c)
              ∧ ∃ gap pairs,
                  Py.forallb_str Py.isspace gap = true
                  ∧ spaced pairs
                  ∧ redacted E (row_text row) = gap +:+ weave pairs
                  ∧ (∀ k token after, pairs !! k = Some (token, after) →
                       ws_cells ws !! (S r, S k) = Some token)
                  ∧ ∀ k, length pairs ≤ k → ws_cells ws !! (S r, S k) = None.
Proof.
  intros Hx Hload. exists (rebuilt_sheet E <$> wb).
  split; [by apply export_xlsx_run|].
  split; [by rewrite length_fmap|].
  split.
  { rewrite <-list_fmap_compose. apply list_fmap_ext. intros _ sheet _.
    apply rebuilt_sheet_title. }
  intros i sheet Hi. exists (rebuilt_sheet E sheet).
  split; [by rewrite list_lookup_fmap, Hi|].
  split; [apply rebuilt_sheet_title|].
  split; [apply rebuilt_sheet_lookup|].
  intros r row Hrow.
  assert (Hcell : ∀ k, ws_cells (rebuilt_sheet E sheet) !! (S r, S k)
                       = Py.split (redacted E (row_text row)) !! k).
  { intros k. rewrite rebuilt_sheet_lookup. unfold expected_cell. by rewrite Hrow. }
  split; [|split; [exact Hcell|]].
  { rewrite rebuilt_sheet_lookup. unfold expected_cell. by rewrite Hrow. }
  destruct (split_weave (redacted E (row_text row))) as (gap & pairs & Hgap & Hsp & Hline & Hsplit).
  exists gap, pairs. repeat split; try done.
  - intros k token after Hk. by rewrite Hcell, Hsplit, list_lookup_fmap, Hk.
  - intros k Hk. rewrite Hcell, Hsplit. apply lookup_ge_None_2. by rewrite length_fmap.
Qed.

Lemma workbook_reconstruction_witness :
  ∃ clean_wb,
    export Sample.env (Sample.file "people.xlsx" xlsx_mime) "" Sample.fresh
    = (Done tt,
       add_trace (workbook_calls Sample.env Sample.workbook ++
         [StDownloadButton ("⬇️ Download Cleaned XLSX (" +:+ "people.xlsx" +:+ ")")
            (XlsxData clean_wb) ("cleaned_" +:+ "people.xlsx") (Some xlsx_mime)])
         Sample.fresh)
    ∧ length clean_wb = length Sample.workbook
    ∧ ws_title <$> clean_wb = title <$> Sample.workbook
    ∧ ∀ i sheet, Sample.workbook !! i = Some sheet →
        ∃ ws, clean_wb !! i = Some ws
          ∧ ws_title ws = title sheet
          ∧ (∀ r c, ws_cells ws !! (r, c) = expected_cell Sample.env (iter_rows sheet) r c)
          ∧ ∀ r row, iter_rows sheet !! r = Some row →
              ws_cells ws !! (S r, 0) = None
              ∧ (∀ c, ws_cells ws !! (S r, S c)
                      = Py.split (redacted Sample.env (row_text row)) !! c)
              ∧ ∃ gap pairs,
                  Py.forallb_str Py.isspace gap = true
                  ∧ spaced pairs
                  ∧ redacted Sample.env (row_text row) = gap +:+ weave pairs
                  ∧ (∀ k token after, pairs !! k = Some (token, after) →
                       ws_cells ws !! (S r, S k) = Some token)
                  ∧ ∀ k, length pairs ≤ k → ws_cells ws !! (S r, S k) = None.
Proof.
  apply (workbook_reconstruction Sample.env (Sample.file "people.xlsx" xlsx_mime) ""
           Sample.workbook Sample.fresh); reflexivity.
Defined.

(** C3.  For a presentation name and a redacted text with K
    newline-delimited lines (the K pieces between its newlines, so K is
    one more than the number of newlines), the export builds exactly K
    slides, in order, each with layout 5 and with the title equal to its
    line cut to the first 100 characters. *)
Theorem presentation_reconstruction (E : externals) (file : uploaded_file)
    (text : string) (w : world) :
  Py.endswith2 (name file) ".pptx" ".PPTX" = true →
  let lines := Py.split_on Py.newline text in
  let slides := export_slides text in
  export E file text w
  = (Done tt,
     add_trace
       [StDownloadButton ("⬇️ Download Cleaned PPTX (" +:+ name file +:+ ")")
          (PptxData slides) ("cleaned_" +:+ name file) (Some pptx_mime)] w)
  ∧ Py.join (String Py.newline "") lines = text
  ∧ Forall (λ line, Py.count_char Py.newline line = 0) lines
  ∧ length lines = S (Py.count_char Py.newline text)
  ∧ length slides = length lines
  ∧ ∀ i line, lines !! i = Some line →
      ∃ rest,
        slides !! i = Some {| slide_layout := 5; slide_title := Py.slice_to 100 line |}
        ∧ line = Py.slice_to 100 line +:+ rest
        ∧ String.length (Py.slice_to 100 line) = 100 `min` String.length line.
Proof.
  intros Hp lines slides. subst lines slides.
  split; [by apply export_pptx_run|].
  split; [apply split_on_join|].
  split; [apply split_on_pieces|].
  split; [apply split_on_length|].
  rewrite export_slides_fmap. split; [by rewrite length_fmap|].
  intros i line Hi. destruct (slice_to_prefix 100 line) as [rest Hrest].
  exists rest. rewrite list_lookup_fmap, Hi. split; [done|].
  split; [exact Hrest|apply slice_to_length].
Qed.

Lemma presentation_reconstruction_witness :
  let text := "Title" +:+ String Py.newline "<PERSON> speaks" in
  let lines := Py.split_on Py.newline text in
  let slides := export_slides text in
  export Sample.env (Sample.file "talk.pptx" pptx_mime) text Sample.fresh
  = (Done tt,
     add_trace
       [StDownloadButton ("⬇️ Download Cleaned PPTX (" +:+ "talk.pptx" +:+ ")")
          (PptxData slides) ("cleaned_" +:+ "talk.pptx") (Some pptx_mime)] Sample.fresh)
  ∧ Py.join (String Py.newline "") lines = text
  ∧ Forall (λ line, Py.count_char Py.newline line = 0) lines
  ∧ length lines = S (Py.count_char Py.newline text)
  ∧ length slides = length lines
  ∧ ∀ i line, lines !! i = Some line →
      ∃ rest,
        slides !! i = Some {| slide_layout := 5; slide_title := Py.slice_to 100 line |}
        ∧ line = Py.slice_to 100 line +:+ rest
        ∧ String.length (Py.slice_to 100 line) = 100 `min` String.length line.
Proof.
  apply (presentation_reconstruction Sample.env (Sample.file "talk.pptx" pptx_mime)
           ("Title" +:+ String Py.newline "<PERSON> speaks") Sample.fresh); reflexivity.
Defined.

Example presentation_sample :
  export_slides ("Title" +:+ String Py.newline "<PERSON> speaks")
  = [ {| slide_layout := 5; slide_title := "Title" |};
      {| slide_layout := 5; slide_title := "<PERSON> speaks" |} ].
Proof. reflexivity. Qed.

(** C4.  For a word-processing document (a file that reaches the docx
    branch and that the parser opens), the extracted text is the text of
    all paragraphs in document order, each followed by a newline, followed
    by the text of all tables in table, row, cell order, each cell
    followed by a space and each row by a newline: paragraphs first,
    tables after, never interleaved.  The single-file pipeline of
    [File_analyser.py], which extracts by the same statements, goes on
    with the same text once its Groq client is built; with the key not
    set it raises before it looks at the file. *)
Theorem docx_extraction_order (E : externals) (file : uploaded_file)
    (doc : docx_document) (w : world) :
  String.eqb (type file) "text/plain" = false →
  String.eqb (type file) "application/pdf" = false →
  Py.endswith2 (name file) ".docx" ".DOCX" = true →
  docx_Document E (data file) = Some doc →
  extract_text E file = Done (paragraph_text doc +:+ table_text doc)
  ∧ analyser_main E (Some file) w
    = match groq_api_key E with
      | Some _ =>
          analyser_show E (paragraph_text doc +:+ table_text doc)
            (add_trace [StTitle "📄 VIT AP Automated File Cleansing & Analysis";
                        StSuccess ("✅ File uploaded: " +:+ name file)] w)
      | None =>
          (Raise GroqError,
           add_trace [StTitle "📄 VIT AP Automated File Cleansing & Analysis"] w)
      end.
Proof.
  intros H1 H2 H3 H4.
  pose proof (docx_branch E file doc H1 H2 H3 H4) as Hext.
  split; [done|]. unfold analyser_main.
  rewrite (bind_done _ _ _ _ _ (emit_run _ _)).
  rewrite bind_run. unfold lift at 1.
  destruct (groq_api_key E) as [key|]; [|done]. cbn [or_raise].
  rewrite (bind_done _ _ _ _ _ (emit_run _ _)).
  rewrite add_trace_app.
  by rewrite (bind_done _ _ _ (paragraph_text doc +:+ table_text doc) _)
    by (unfold lift; by rewrite Hext).
Qed.

Lemma docx_extraction_order_witness :
  extract_text Sample.env (Sample.file "letter.docx" Sample.docx_mime)
  = Done (paragraph_text Sample.doc +:+ table_text Sample.doc)
  ∧ analyser_main Sample.env (Some (Sample.file "letter.docx" Sample.docx_mime)) Sample.fresh
    = match groq_api_key Sample.env with
      | Some _ =>
          analyser_show Sample.env (paragraph_text Sample.doc +:+ table_text Sample.doc)
            (add_trace [StTitle "📄 VIT AP Automated File Cleansing & Analysis";
                        StSuccess ("✅ File uploaded: " +:+ "letter.docx")] Sample.fresh)
      | None =>
          (Raise GroqError,
           add_trace [StTitle "📄 VIT AP Automated File Cleansing & Analysis"] Sample.fresh)
      end.
Proof.
  apply (docx_extraction_order Sample.env (Sample.file "letter.docx" Sample.docx_mime)
           Sample.doc Sample.fresh); reflexivity.
Defined.

Example docx_extraction_sample :
  paragraph_text Sample.doc +:+ table_text Sample.doc
  = "Dear John Smith," +:+ String Py.newline ("hello" +:+ String Py.newline
      ("a b " +:+ String Py.newline ("c d " +:+ String Py.newline ""))).
Proof. reflexivity. Qed.

(** C5, as the code has it.  For a spreadsheet (a file that reaches the
    xlsx branch and whose workbook loads), the extracted text is, sheet
    after sheet and row after row, the [str] of each cell whose truth
    value is true followed by one space, and one newline after each row.
    A cell whose truth value is false (null, the empty string, zero,
    False) contributes nothing, not even a separator. *)
Theorem xlsx_flat_view (E : externals) (file : uploaded_file) (wb : list worksheet) :
  String.eqb (type file) "text/plain" = false →
  String.eqb (type file) "application/pdf" = false →
  Py.endswith2 (name file) ".xlsx" ".XLSX" = true →
  load_workbook E (data file) = Some wb →
  extract_text E file
  = Done (flat ((λ sheet,
            flat ((λ row,
              flat ((λ cell, str cell +:+ " ") <$> filter (λ cell, truthy cell = true) row)
              +:+ String Py.newline "") <$> iter_rows sheet)) <$> wb)).
Proof. apply xlsx_branch. Qed.

Lemma xlsx_flat_view_witness :
  extract_text Sample.env (Sample.file "people.xlsx" xlsx_mime)
  = Done (flat ((λ sheet,
            flat ((λ row,
              flat ((λ cell, str cell +:+ " ") <$> filter (λ cell, truthy cell = true) row)
              +:+ String Py.newline "") <$> iter_rows sheet)) <$> Sample.workbook)).
Proof.
  apply (xlsx_flat_view Sample.env (Sample.file "people.xlsx" xlsx_mime) Sample.workbook);
    reflexivity.
Defined.

(** C5 as stated fails.  On a sheet whose only row holds the number zero
    the extraction gives a lone newline, while the cells space-joined give
    "0"; on the sample workbook the two texts differ as well. *)
Lemma flat_view_differs :
  extract_text Sample.env (Sample.file "people.xlsx" xlsx_mime)
  = Done (extract_xlsx Sample.workbook "")
  ∧ extract_xlsx Sample.workbook "" ≠ spec_flat_view Sample.workbook
  ∧ extract_xlsx [ {| title := "Sheet1"; iter_rows := [ [VInt 0] ] |} ] ""
    = String Py.newline ""
  ∧ spec_flat_view [ {| title := "Sheet1"; iter_rows := [ [VInt 0] ] |} ] = "0".
Proof. repeat split; try reflexivity. by vm_compute. Qed.

(** C6, as the code has it.  For a file that no branch of [extract_text]
    accepts (the media type is neither text/plain nor application/pdf nor
    starts with image, and the name ends with none of .docx, .DOCX, .xlsx,
    .XLSX, .pptx, .PPTX), extraction raises nothing and returns the empty
    text. *)
Theorem unresolved_kind_gives_empty_text (E : externals) (file : uploaded_file) :
  String.eqb (type file) "text/plain" = false →
  String.eqb (type file) "application/pdf" = false →
  Py.endswith2 (name file) ".docx" ".DOCX" = false →
  Py.endswith2 (name file) ".xlsx" ".XLSX" = false →
  Py.endswith2 (name file) ".pptx" ".PPTX" = false →
  Py.startswith (type file) "image" = false →
  extract_text E file = Done "".
Proof.
  intros H1 H2 H3 H4 H5 H6. unfold extract_text.
  by rewrite H1, H2, H3, H4, H5, H6.
Qed.

Lemma unresolved_kind_gives_empty_text_witness :
  extract_text Sample.env (Sample.file "report.Docx" Sample.docx_mime) = Done "".
Proof.
  apply (unresolved_kind_gives_empty_text Sample.env
           (Sample.file "report.Docx" Sample.docx_mime)); reflexivity.
Defined.

(** C6 as stated fails.  A file named report.Docx, whose kind no branch
    resolves, is not rejected: extraction returns the empty text and the
    batch pipeline runs to the end, recording the upload. *)
Lemma unresolved_kind_not_rejected :
  extract_text Sample.env (Sample.file "report.Docx" Sample.docx_mime) = Done ""
  ∧ (main Sample.env [Sample.file "report.Docx" Sample.docx_mime] Sample.fresh).1 = Done tt
  ∧ upload_history
      (main Sample.env [Sample.file "report.Docx" Sample.docx_mime] Sample.fresh).2
    = [ {| filename := "report.Docx"; timestamp := "2024-01-01 00:00:00" |} ].
Proof. repeat split; by vm_compute. Qed.

(** The guard of [File_analyser.py]: a text that strips to nothing gets
    the warning and nothing else; no engine is called and no download is
    offered. *)
Lemma analyser_guard (E : externals) (text : string) (w : world) :
  Py.strip text = "" →
  analyser_show E text w
  = (Done tt, add_trace [StWarning "⚠️ No text could be extracted from this file."] w).
Proof. intros H. unfold analyser_show. by rewrite H. Qed.

Lemma analyser_guard_whitespace (E : externals) (text : string) (w : world) :
  Py.forallb_str Py.isspace text = true →
  analyser_show E text w
  = (Done tt, add_trace [StWarning "⚠️ No text could be extracted from this file."] w).
Proof. intros H. by apply analyser_guard, strip_empty. Qed.

(** C7 fails on [file_cleanser.py].  A text file that holds three spaces
    extracts to a whitespace-only text; the batch pipeline shows no
    warning, runs the analyzer, the anonymizer and the summarizer on that
    text and offers the download, while [File_analyser.py] on the same
    file only warns. *)
Theorem empty_text_still_processed :
  Py.strip "   " = ""
  ∧ extract_text Sample.env Sample.blank = Done "   "
  ∧ (main Sample.env [Sample.blank] Sample.fresh).1 = Done tt
  ∧ trace (main Sample.env [Sample.blank] Sample.fresh).2
    = [ StTitle "📄 File Analyzer with AI";
        CallAnalyze "   "; CallAnonymize "   " [];
        CallChainRun "   ";
        StSubheader "🤖 AI Summary for blank.txt";
        StTextArea "AI Summary" "AI summary unavailable.";
        StDownloadButton "⬇️ Download Cleaned TXT (blank.txt)" (TextData "   ")
          "cleaned_blank.txt" None;
        StSubheader "📜 Upload History";
        StWrite "**1. blank.txt** — uploaded at *2024-01-01 00:00:00*" ]
  ∧ trace (analyser_main Sample.env (Some Sample.blank) Sample.fresh).2
    = [ StTitle "📄 VIT AP Automated File Cleansing & Analysis";
        StSuccess "✅ File uploaded: blank.txt";
        StWarning "⚠️ No text could be extracted from this file." ].
Proof. repeat split; by vm_compute. Qed.




(** In the sample batch the first summary call fails and the second
    answers; both files get their download. *)
Example summary_failure_sample :
  (main Sample.env
     [ Sample.file "notes.txt" "text/plain"; Sample.file "people.xlsx" xlsx_mime ]
     Sample.fresh).1 = Done tt
  ∧ List.filter (λ e, match e with StTextArea _ _ => true | _ => false end)
      (trace (main Sample.env
                [ Sample.file "notes.txt" "text/plain"; Sample.file "people.xlsx" xlsx_mime ]
                Sample.fresh).2)
    = [ StTextArea "AI Summary" "AI summary unavailable.";
        StTextArea "AI Summary"
          ("Summary: <PERSON> " +:+ String Py.newline ("John Smith 42 "
             +:+ String Py.newline ("x y " +:+ String Py.newline ""))) ].
Proof. split; by vm_compute. Qed.



Example upload_history_sample :
  upload_history
    (main Sample.env
       [ Sample.file "notes.txt" "text/plain"; Sample.file "people.xlsx" xlsx_mime ]
       Sample.fresh).2
  = [ {| filename := "notes.txt"; timestamp := "2024-01-01 00:00:00" |};
      {| filename := "people.xlsx"; timestamp := "2024-01-01 00:00:01" |} ]
  ∧ reverse (take 3 (reverse (trace
      (main Sample.env
         [ Sample.file "notes.txt" "text/plain"; Sample.file "people.xlsx" xlsx_mime ]
         Sample.fresh).2)))
    = [ StSubheader "📜 Upload History";
        StWrite "**1. people.xlsx** — uploaded at *2024-01-01 00:00:01*";
        StWrite "**2. notes.txt** — uploaded at *2024-01-01 00:00:00*" ].
Proof. split; by vm_compute. Qed.

(** C10.  For a spreadsheet, [process_file] redacts twice.  The first
    pass runs on the whole extracted text; its result goes to the
    summarizer.  The export then loads the workbook again and runs a
    second pass, one call per row, and the workbook it offers is built
    from the row results alone: the export gives the same outcome whatever
    document-level text it is handed, and every cell is a token of the
    redacted line of its own row.  Nothing ties the two results together:
    there are an engine and a workbook for which the words of the
    document-level redacted text are not the tokens of the rebuilt rows. *)
Theorem spreadsheet_second_pass (E : externals) (file : uploaded_file)
    (original : string) (wb : list worksheet) (h : list upload_record) (w : world) :
  extract_text E file = Done original →
  Py.endswith2 (name file) ".xlsx" ".XLSX" = true →
  load_workbook E (data file) = Some wb →
  session_state w !! "upload_history" = Some h →
  (∃ w', process_file E file w = (Done tt, w')
     ∧ trace w'
       = trace w
         ++ [ CallAnalyze original; CallAnonymize original (analyze E original);
              CallChainRun (redacted E original);
              StSubheader ("🤖 AI Summary for " +:+ name file);
              StTextArea "AI Summary" (shown_summary E (llm_calls w) original) ]
         ++ mjoin ((λ sheet, mjoin (row_calls E <$> iter_rows sheet)) <$> wb)
         ++ [ StDownloadButton ("⬇️ Download Cleaned XLSX (" +:+ name file +:+ ")")
                (XlsxData (rebuilt_sheet E <$> wb)) ("cleaned_" +:+ name file)
                (Some xlsx_mime) ])
  ∧ (∀ text1 text2 w1, export E file text1 w1 = export E file text2 w1)
  ∧ (∀ sheet r c,
       ws_cells (rebuilt_sheet E sheet) !! (r, c) = expected_cell E (iter_rows sheet) r c)
  ∧ (∃ E' wb',
       Py.split (redacted E' (extract_xlsx wb' ""))
       ≠ mjoin ((λ sheet,
                  mjoin ((λ row, Py.split (redacted E' (row_text row))) <$> iter_rows sheet))
                <$> wb')).
Proof.
  intros Hext Hx Hload Hh. split; [|split; [|split]].
  - eexists. split.
    + apply (process_file_run E file original h); [done|done|].
      intros w1. by apply export_xlsx_run.
    + reflexivity.
  - intros text1 text2 w1.
    by rewrite (export_xlsx_run E file text1 wb w1), (export_xlsx_run E file text2 wb w1).
  - intros sheet r c. apply rebuilt_sheet_lookup.
  - exists Sample.env, Sample.workbook. by vm_compute.
Qed.

Lemma spreadsheet_second_pass_witness :
  (∃ w', process_file Sample.env (Sample.file "people.xlsx" xlsx_mime) Sample.started
         = (Done tt, w')
     ∧ trace w'
       = trace Sample.started
         ++ [ CallAnalyze (extract_xlsx Sample.workbook "");
              CallAnonymize (extract_xlsx Sample.workbook "")
                (analyze Sample.env (extract_xlsx Sample.workbook ""));
              CallChainRun (redacted Sample.env (extract_xlsx Sample.workbook ""));
              StSubheader ("🤖 AI Summary for " +:+ "people.xlsx");
              StTextArea "AI Summary"
                (shown_summary Sample.env (llm_calls Sample.started)
                   (extract_xlsx Sample.workbook "")) ]
         ++ mjoin ((λ sheet, mjoin (row_calls Sample.env <$> iter_rows sheet))
                   <$> Sample.workbook)
         ++ [ StDownloadButton ("⬇️ Download Cleaned XLSX (" +:+ "people.xlsx" +:+ ")")
                (XlsxData (rebuilt_sheet Sample.env <$> Sample.workbook))
                ("cleaned_" +:+ "people.xlsx") (Some xlsx_mime) ])
  ∧ (∀ text1 text2 w1,
       export Sample.env (Sample.file "people.xlsx" xlsx_mime) text1 w1
       = export Sample.env (Sample.file "people.xlsx" xlsx_mime) text2 w1)
  ∧ (∀ sheet r c,
       ws_cells (rebuilt_sheet Sample.env sheet) !! (r, c)
       = expected_cell Sample.env (iter_rows sheet) r c)
  ∧ (∃ E' wb',
       Py.split (redacted E' (extract_xlsx wb' ""))
       ≠ mjoin ((λ sheet,
                  mjoin ((λ row, Py.split (redacted E' (row_text row))) <$> iter_rows sheet))
                <$> wb')).
Proof.
  apply (spreadsheet_second_pass Sample.env (Sample.file "people.xlsx" xlsx_mime)
           (extract_xlsx Sample.workbook "") Sample.workbook [] Sample.started);
    reflexivity.
Defined.

(** The sample workbook: the document-level pass redacts the name of the
    first row, where the extraction dropped the null cell between its two
    words; the row pass sees two spaces there and leaves the name, and
    redacts the second row instead. *)
Example passes_disagree_sample :
  Py.split (redacted Sample.env (extract_xlsx Sample.workbook ""))
  = ["<PERSON>"; "John"; "Smith"; "42"; "x"; "y"]
  ∧ (λ sheet, (λ row, Py.split (redacted Sample.env (row_text row))) <$> iter_rows sheet)
      <$> Sample.workbook
    = [ [ ["John"; "Smith"]; ["<PERSON>"; "42"] ]; [ ["x"; "y"] ] ].
Proof. split; by vm_compute. Qed.

(** * Further properties of the code *)

(** X1.  For a presentation (a file that reaches the pptx branch and
    that the parser opens), the extracted text is the text of every shape
    that has one, slide after slide and shape after shape, each followed
    by a newline; shapes without a text attribute leave no trace. *)
Theorem pptx_extraction (E : externals) (file : uploaded_file) (slides : list slide_shapes) :
  String.eqb (type file) "text/plain" = false →
  String.eqb (type file) "application/pdf" = false →
  Py.endswith2 (name file) ".pptx" ".PPTX" = true →
  pptx_Presentation E (data file) = Some slides →
  extract_text E file
  = Done (flat ((λ t, t +:+ String Py.newline "") <$> mjoin (omap id <$> slides))).
Proof. apply pptx_branch. Qed.

Lemma pptx_extraction_witness :
  extract_text Sample.env (Sample.file "talk.pptx" pptx_mime)
  = Done (flat ((λ t, t +:+ String Py.newline "") <$> mjoin (omap id <$> Sample.slides))).
Proof.
  apply (pptx_extraction Sample.env (Sample.file "talk.pptx" pptx_mime) Sample.slides);
    reflexivity.
Defined.



(** X3.  The record is appended before the export runs.  For a file with
    a spreadsheet name whose text was extracted (through its media type)
    but whose bytes do not load as a workbook, [process_file] raises in
    the export, after the upload was recorded and the summary shown; no
    download is offered. *)
Theorem export_failure_keeps_record (E : externals) (file : uploaded_file)
    (text : string) (h : list upload_record) (w : world) :
  extract_text E file = Done text →
  Py.endswith2 (name file) ".xlsx" ".XLSX" = true →
  load_workbook E (data file) = None →
  session_state w !! "upload_history" = Some h →
  ∃ w', process_file E file w = (Raise WorkbookLoadError, w')
        ∧ upload_history w'
          = h ++ [ {| filename := name file; timestamp := now E (clock w) |} ]
        ∧ trace w'
          = trace w
            ++ [ CallAnalyze text; CallAnonymize text (analyze E text);
                 CallChainRun (redacted E text);
                 StSubheader ("🤖 AI Summary for " +:+ name file);
                 StTextArea "AI Summary" (shown_summary E (llm_calls w) text) ].
Proof.
  intros Hext Hx Hload Hh. eexists. split; [|split].
  - rewrite (process_file_to_export E file text h w Hext Hh). unfold export.
    rewrite (xlsx_not_txt _ Hx), (xlsx_not_docx _ Hx), Hx, Hload. reflexivity.
  - unfold upload_history. cbn [session_state]. by rewrite lookup_insert_eq.
  - reflexivity.
Qed.

Lemma export_failure_keeps_record_witness :
  ∃ w', process_file Sample.env (Quiet.empty_file "sheet.xlsx" "text/plain") Sample.started
        = (Raise WorkbookLoadError, w')
        ∧ upload_history w'
          = [] ++ [ {| filename := "sheet.xlsx";
                       timestamp := now Sample.env (clock Sample.started) |} ]
        ∧ trace w'
          = trace Sample.started
            ++ [ CallAnalyze ""; CallAnonymize "" (analyze Sample.env "");
                 CallChainRun (redacted Sample.env "");
                 StSubheader ("🤖 AI Summary for " +:+ "sheet.xlsx");
                 StTextArea "AI Summary"
                   (shown_summary Sample.env (llm_calls Sample.started) "") ].
Proof.
  apply (export_failure_keeps_record Sample.env (Quiet.empty_file "sheet.xlsx" "text/plain")
           "" [] Sample.started); reflexivity.
Defined.

(** X4.  For a word-processing name the export builds a document with
    one paragraph per newline-delimited line of the redacted text, in
    order: the lines joined by newlines give the text back, none holds a
    newline, and there is one more than the text has newlines (so an empty
    text gives one empty paragraph).  When the library accepts every line
    as a paragraph the document is offered for download; when it refuses
    one (a line with a control character), the export raises [ValueError]
    and nothing is offered. *)
Theorem docx_export_lines (E : externals) (file : uploaded_file) (text : string) (w : world) :
  Py.endswith2 (name file) ".docx" ".DOCX" = true →
  ∃ paras,
    Py.join (String Py.newline "") paras = text
    ∧ Forall newline_free paras
    ∧ length paras = S (Py.count_char Py.newline text)
    ∧ export E file text w
      = if forallb (add_paragraph_ok E) paras
        then (Done tt,
              add_trace
                [StDownloadButton ("⬇️ Download Cleaned DOCX (" +:+ name file +:+ ")")
                   (DocxData paras) ("cleaned_" +:+ name file) None] w)
        else (Raise ValueError, w).
Proof.
  intros Hd. exists (Py.split_on Py.newline text).
  split; [apply split_on_join|].
  split; [apply split_on_pieces|].
  split; [apply split_on_length|by apply export_docx_run].
Qed.

Lemma docx_export_lines_witness :
  ∃ paras,
    Py.join (String Py.newline "") paras = ""
    ∧ Forall newline_free paras
    ∧ length paras = S (Py.count_char Py.newline "")
    ∧ export Sample.env (Sample.file "letter.docx" Sample.docx_mime) "" Sample.fresh
      = if forallb (add_paragraph_ok Sample.env) paras
        then (Done tt,
              add_trace
                [StDownloadButton ("⬇️ Download Cleaned DOCX (" +:+ "letter.docx" +:+ ")")
                   (DocxData paras) ("cleaned_" +:+ "letter.docx") None] Sample.fresh)
        else (Raise ValueError, Sample.fresh).
Proof.
  apply (docx_export_lines Sample.env (Sample.file "letter.docx" Sample.docx_mime) ""
           Sample.fresh); reflexivity.
Defined.

(** X5.  Extraction followed by export of a word-processing document
    whose text the redaction leaves unchanged: when no paragraph and no
    table row holds a newline, the rebuilt document has the original
    paragraphs, then one paragraph per table row (its cells each followed
    by a space), then one empty paragraph.  The text parsed from a
    document holds no character that the library refuses in a paragraph,
    so the export returns; were a line refused, it would raise
    [ValueError] instead. *)
Theorem docx_round_trip (E : externals) (file : uploaded_file) (doc : docx_document)
    (w : world) :
  String.eqb (type file) "text/plain" = false →
  String.eqb (type file) "application/pdf" = false →
  Py.endswith2 (name file) ".docx" ".DOCX" = true →
  docx_Document E (data file) = Some doc →
  Forall newline_free (paragraphs doc) →
  Forall newline_free (table_lines doc) →
  redacted E (paragraph_text doc +:+ table_text doc) = paragraph_text doc +:+ table_text doc →
  ∃ text,
    extract_text E file = Done text
    ∧ export E file (redacted E text) w
      = if forallb (add_paragraph_ok E) (paragraphs doc ++ table_lines doc ++ [""])
        then (Done tt,
              add_trace
                [StDownloadButton ("⬇️ Download Cleaned DOCX (" +:+ name file +:+ ")")
                   (DocxData (paragraphs doc ++ table_lines doc ++ [""]))
                   ("cleaned_" +:+ name file) None] w)
        else (Raise ValueError, w).
Proof.
  intros H1 H2 H3 H4 Hp Ht Hid. exists (paragraph_text doc +:+ table_text doc).
  split; [by apply docx_branch|].
  by rewrite Hid, export_docx_run, docx_text_lines.
Qed.

Lemma docx_round_trip_witness :
  ∃ text,
    extract_text Quiet.env (Sample.file "agenda.docx" Sample.docx_mime) = Done text
    ∧ export Quiet.env (Sample.file "agenda.docx" Sample.docx_mime)
        (redacted Quiet.env text) Sample.fresh
      = (Done tt,
         add_trace
           [StDownloadButton ("⬇️ Download Cleaned DOCX (" +:+ "agenda.docx" +:+ ")")
              (DocxData (paragraphs Quiet.doc ++ table_lines Quiet.doc ++ [""]))
              ("cleaned_" +:+ "agenda.docx") None] Sample.fresh).
Proof.
  apply (docx_round_trip Quiet.env (Sample.file "agenda.docx" Sample.docx_mime) Quiet.doc
           Sample.fresh); try reflexivity; repeat constructor.
Defined.

(** X6.  Extraction followed by export of a presentation whose text the
    redaction leaves unchanged: when no shape text holds a newline, the
    rebuilt presentation has one slide per shape that has a text, titled
    with the first 100 characters of that text, and one more slide with an
    empty title at the end. *)
Theorem pptx_round_trip (E : externals) (file : uploaded_file) (slides : list slide_shapes)
    (w : world) :
  String.eqb (type file) "text/plain" = false →
  String.eqb (type file) "application/pdf" = false →
  Py.endswith2 (name file) ".pptx" ".PPTX" = true →
  pptx_Presentation E (data file) = Some slides →
  Forall newline_free (shape_texts slides) →
  redacted E (flat ((λ t, t +:+ String Py.newline "") <$> shape_texts slides))
  = flat ((λ t, t +:+ String Py.newline "") <$> shape_texts slides) →
  ∃ text,
    extract_text E file = Done text
    ∧ export E file (redacted E text) w
      = (Done tt,
         add_trace
           [StDownloadButton ("⬇️ Download Cleaned PPTX (" +:+ name file +:+ ")")
              (PptxData
                 (((λ t, {| slide_layout := 5; slide_title := Py.slice_to 100 t |})
                     <$> shape_texts slides)
                  ++ [ {| slide_layout := 5; slide_title := "" |} ]))
              ("cleaned_" +:+ name file) (Some pptx_mime)] w).
Proof.
  intros H1 H2 H3 H4 Hs Hid. eexists. split; [by apply pptx_branch|].
  rewrite Hid, export_pptx_run by done. rewrite export_slides_fmap.
  rewrite <-(append_nil_r (flat _)), split_on_lines by done.
  by rewrite fmap_app.
Qed.

Lemma pptx_round_trip_witness :
  ∃ text,
    extract_text Quiet.env (Sample.file "talk.pptx" pptx_mime) = Done text
    ∧ export Quiet.env (Sample.file "talk.pptx" pptx_mime) (redacted Quiet.env text)
        Sample.fresh
      = (Done tt,
         add_trace
           [StDownloadButton ("⬇️ Download Cleaned PPTX (" +:+ "talk.pptx" +:+ ")")
              (PptxData
                 (((λ t, {| slide_layout := 5; slide_title := Py.slice_to 100 t |})
                     <$> shape_texts Sample.slides)
                  ++ [ {| slide_layout := 5; slide_title := "" |} ]))
              ("cleaned_" +:+ "talk.pptx") (Some pptx_mime)] Sample.fresh).
Proof.
  apply (pptx_round_trip Quiet.env (Sample.file "talk.pptx" pptx_mime) Sample.slides
           Sample.fresh); try reflexivity; repeat constructor.
Defined.





(** X9.  A run without uploaded files calls no engine and reads no
    clock: it shows the title and the history as it stands, and leaves the
    history as it was (created empty when the session had none). *)
Theorem run_without_files (E : externals) (w : world) :
  ∃ w', main E [] w = (Done tt, w')
        ∧ trace w'
          = trace w
            ++ [ StTitle "📄 File Analyzer with AI"; StSubheader "📜 Upload History" ]
            ++ imap (λ i entry, StWrite (history_line (S i) entry))
                 (reverse (upload_history w))
        ∧ upload_history w' = upload_history w
        ∧ session_state w' !! "upload_history" = Some (upload_history w)
        ∧ clock w' = clock w
        ∧ llm_calls w' = llm_calls w.
Proof.
  unfold main. rewrite (bind_done _ _ _ _ _ (emit_run _ _)).
  destruct (init_session_run (add_trace [StTitle "📄 File Analyzer with AI"] w))
    as (w0 & Hinit & Hh0 & Htr0 & Hc0 & Hl0).
  rewrite (bind_done _ _ _ _ _ Hinit).
  rewrite (bind_done _ _ w0 tt w0) by done.
  rewrite (display_history_run _ w0 Hh0).
  eexists. split; [done|].
  rewrite upload_history_add_trace in Hh0.
  split; [|split; [|split; [|split]]].
  - rewrite trace_add_trace, Htr0, trace_add_trace, <-app_assoc.
    by rewrite upload_history_add_trace.
  - rewrite upload_history_add_trace. unfold upload_history at 1. by rewrite Hh0.
  - exact Hh0.
  - exact Hc0.
  - exact Hl0.
Qed.

Section SingleFile.
Context (E : externals).

Lemma app_show_run text w :
  app_show E text w
  = (Done tt,
     add_trace (if Py.nonempty (Py.strip text) then shown_events E text
                else [StWarning "⚠️ No text could be extracted from this file."]) w).
Proof.
  unfold app_show. destruct (Py.nonempty (Py.strip text)); [|done].
  rewrite (bind_done _ _ _ _ _ (emit_run _ _)).
  rewrite (bind_done _ _ _ _ _ (emit_run _ _)).
  rewrite (bind_done _ _ _ _ _ (redact_run E text _)).
  rewrite (bind_done _ _ _ _ _ (emit_run _ _)).
  rewrite (bind_done _ _ _ _ _ (emit_run _ _)).
  by rewrite emit_run, !add_trace_app.
Qed.

Lemma insight_run anonymized w :
  (if from_option Py.nonempty false (groq_api_key E) then
     emit (StSubheader "🤖 AI Insights (Groq)");;
     completion ← groq_call E anonymized;
     match completion with
     | Answer ai_response => emit (StMarkdown (insight_box ai_response))
     | Failed e => emit (StError (groq_error_text e))
     end
   else emit (StInfo "No GROQ_API_KEY found. Please set it to enable AI insights.")) w
  = (Done tt, add_trace (insight_events E anonymized) w).
Proof.
  unfold insight_events. destruct (from_option Py.nonempty false (groq_api_key E)); [|done].
  rewrite (bind_done _ _ _ _ _ (emit_run _ _)).
  unfold groq_call. rewrite bind_run, (bind_done _ _ _ _ _ (emit_run _ _)).
  unfold mret, M_ret.
  destruct (groq_complete E anonymized) as [r|e];
    by rewrite emit_run, !add_trace_app.
Qed.

Lemma analyser_show_run text w :
  analyser_show E text w
  = (Done tt,
     add_trace (if Py.nonempty (Py.strip text)
                then shown_events E text ++ insight_events E (redacted E text)
                else [StWarning "⚠️ No text could be extracted from this file."]) w).
Proof.
  unfold analyser_show. destruct (Py.nonempty (Py.strip text)); [|done].
  rewrite (bind_done _ _ _ _ _ (emit_run _ _)).
  rewrite (bind_done _ _ _ _ _ (emit_run _ _)).
  rewrite (bind_done _ _ _ _ _ (redact_run E text _)).
  rewrite (bind_done _ _ _ _ _ (emit_run _ _)).
  rewrite (bind_done _ _ _ _ _ (emit_run _ _)).
  rewrite (bind_done _ _ _ _ _ (emit_run _ _)).
  by rewrite insight_run, !add_trace_app.
Qed.

(** [app.py] on a file whose text is extracted. *)
Lemma app_main_run file text w :
  extract_text E file = Done text →
  app_main E (Some file) w
  = (Done tt,
     add_trace
       ([ StTitle "📄 Automated File Cleansing & Analysis";
          StSuccess ("✅ File uploaded: " +:+ name file) ]
        ++ (if Py.nonempty (Py.strip text) then shown_events E text
            else [StWarning "⚠️ No text could be extracted from this file."])) w).
Proof.
  intros Hext. unfold app_main.
  rewrite (bind_done _ _ _ _ _ (emit_run _ _)).
  rewrite (bind_done _ _ _ _ _ (emit_run _ _)).
  rewrite (bind_done _ _ _ text _) by (unfold lift; by rewrite Hext).
  by rewrite app_show_run, !add_trace_app.
Qed.

(** [File_analyser.py]: without the key the client is not built and the
    run ends there, whether a file was uploaded or not. *)
Lemma analyser_main_without_key uploaded w :
  groq_api_key E = None →
  analyser_main E uploaded w
  = (Raise GroqError,
     add_trace [StTitle "📄 VIT AP Automated File Cleansing & Analysis"] w).
Proof.
  intros Hkey. unfold analyser_main.
  rewrite (bind_done _ _ _ _ _ (emit_run _ _)).
  rewrite bind_run. unfold lift at 1. by rewrite Hkey.
Qed.

(** [File_analyser.py] with the key set, on a file whose text is
    extracted. *)
Lemma analyser_main_run file text w :
  is_Some (groq_api_key E) →
  extract_text E file = Done text →
  analyser_main E (Some file) w
  = (Done tt,
     add_trace
       ([ StTitle "📄 VIT AP Automated File Cleansing & Analysis";
          StSuccess ("✅ File uploaded: " +:+ name file) ]
        ++ (if Py.nonempty (Py.strip text)
            then shown_events E text ++ insight_events E (redacted E text)
            else [StWarning "⚠️ No text could be extracted from this file."])) w).
Proof.
  intros [key Hkey] Hext. unfold analyser_main.
  rewrite (bind_done _ _ _ _ _ (emit_run _ _)).
  rewrite bind_run. unfold lift at 1. rewrite Hkey. cbn [or_raise].
  rewrite (bind_done _ _ _ _ _ (emit_run _ _)).
  rewrite (bind_done _ _ _ text _) by (unfold lift; by rewrite Hext).
  by rewrite analyser_show_run, !add_trace_app.
Qed.

End SingleFile.

(** X10.  [File_analyser.py] answers with the lone warning exactly when
    the extracted text is blank, that is, when each of its characters (if
    any) is whitespace. *)
Theorem analyser_warns_iff_blank (E : externals) (text : string) (w : world) :
  analyser_show E text w
  = (Done tt, add_trace [StWarning "⚠️ No text could be extracted from this file."] w)
  ↔ Py.forallb_str Py.isspace text = true.
Proof.
  split; [|apply analyser_guard_whitespace].
  rewrite analyser_show_run, <-strip_empty.
  destruct (Py.strip text); [done|]. cbn [Py.nonempty].
  intros [= H]. by apply app_inv_head in H.
Qed.

(** X11.  A run of [File_analyser.py] on a file whose text is
    extracted, in full.  With the key not set the run ends when the Groq
    client is built, after the title and before the file is looked at.
    With the key set the run returns and leaves the session untouched:
    for a text that is not blank it shows the raw text, redacts it once as
    a whole, shows the result and offers it as cleaned_output.txt,
    whatever the kind of the file; then, for a key that is not empty, it
    calls Groq and shows the answer or, when the call raises, an error box
    with the message of the exception and an advice on a second line; for
    an empty key it shows a hint instead.  For a blank text it shows the
    lone warning. *)
Theorem analyser_show_events (E : externals) (file : uploaded_file) (text : string)
    (w : world) :
  extract_text E file = Done text →
  analyser_main E (Some file) w
  = match groq_api_key E with
    | None =>
        (Raise GroqError,
         add_trace [StTitle "📄 VIT AP Automated File Cleansing & Analysis"] w)
    | Some key =>
        (Done tt,
         add_trace
           ([ StTitle "📄 VIT AP Automated File Cleansing & Analysis";
              StSuccess ("✅ File uploaded: " +:+ name file) ]
            ++ (if Py.nonempty (Py.strip text) then
                  [ StSubheader "📜 Extracted Text";
                    StTextArea "Raw Content" text;
                    CallAnalyze text; CallAnonymize text (analyze E text);
                    StSubheader "🔒 Anonymized Text";
                    StTextArea "Cleansed Output" (redacted E text);
                    StDownloadButton "⬇️ Download Cleaned Text" (TextData (redacted E text))
                      "cleaned_output.txt" None ]
                  ++ (if Py.nonempty key then
                        [ StSubheader "🤖 AI Insights (Groq)";
                          CallGroq ("Summarize and analyze this text:"
                                    +:+ String Py.newline
                                          (String Py.newline (redacted E text)));
                          match groq_complete E (redacted E text) with
                          | Answer ai_response => StMarkdown (insight_box ai_response)
                          | Failed e =>
                              StError
                                ("Groq API error: " +:+ e
                                 +:+ String Py.newline
                                       "Make sure you are using a valid model and your API key is correct.")
                          end ]
                      else
                        [ StInfo "No GROQ_API_KEY found. Please set it to enable AI insights." ])
                else [ StWarning "⚠️ No text could be extracted from this file." ])) w)
    end.
Proof.
  intros Hext. destruct (groq_api_key E) as [key|] eqn:Hkey.
  - rewrite (analyser_main_run E file text w) by (by rewrite ?Hkey).
    unfold insight_events, shown_events. by rewrite Hkey.
  - by apply analyser_main_without_key.
Qed.

Lemma analyser_show_events_witness :
  analyser_main Sample.env (Some (Sample.file "notes.txt" "text/plain")) Sample.fresh
  = (Done tt,
     add_trace
       [ StTitle "📄 VIT AP Automated File Cleansing & Analysis";
         StSuccess "✅ File uploaded: notes.txt";
         StSubheader "📜 Extracted Text";
         StTextArea "Raw Content" "John Smith 0";
         CallAnalyze "John Smith 0";
         CallAnonymize "John Smith 0" (analyze Sample.env "John Smith 0");
         StSubheader "🔒 Anonymized Text";
         StTextArea "Cleansed Output" "<PERSON> 0";
         StDownloadButton "⬇️ Download Cleaned Text" (TextData "<PERSON> 0")
           "cleaned_output.txt" None;
         StSubheader "🤖 AI Insights (Groq)";
         CallGroq ("Summarize and analyze this text:"
                   +:+ String Py.newline (String Py.newline "<PERSON> 0"));
         StError
           ("Groq API error: Connection error."
            +:+ String Py.newline
                  "Make sure you are using a valid model and your API key is correct.") ]
       Sample.fresh).
Proof.
  exact (analyser_show_events Sample.env (Sample.file "notes.txt" "text/plain")
           "John Smith 0" Sample.fresh eq_refl).
Defined.

(** X12.  [app.py] is [File_analyser.py] without the Groq client and the
    AI section.  On a file whose text is extracted [app.py] returns, with
    or without a key.  [File_analyser.py] with the key set shows the same
    events under its own title, followed, for a text that is not blank, by
    the events of the AI section; with the key not set it raises where
    [app.py] goes on. *)
Theorem app_is_analyser_without_insights (E : externals) (file : uploaded_file)
    (text : string) (w : world) :
  extract_text E file = Done text →
  ∃ events,
    events
    = StSuccess ("✅ File uploaded: " +:+ name file)
      :: (if Py.nonempty (Py.strip text) then shown_events E text
          else [StWarning "⚠️ No text could be extracted from this file."])
    ∧ app_main E (Some file) w
      = (Done tt, add_trace (StTitle "📄 Automated File Cleansing & Analysis" :: events) w)
    ∧ analyser_main E (Some file) w
      = match groq_api_key E with
        | Some _ =>
            (Done tt,
             add_trace
               (StTitle "📄 VIT AP Automated File Cleansing & Analysis"
                :: events
                ++ (if Py.nonempty (Py.strip text) then insight_events E (redacted E text)
                    else [])) w)
        | None =>
            (Raise GroqError,
             add_trace [StTitle "📄 VIT AP Automated File Cleansing & Analysis"] w)
        end.
Proof.
  intros Hext. eexists. split; [reflexivity|]. split; [by apply app_main_run|].
  destruct (groq_api_key E) as [key|] eqn:Hkey.
  - rewrite (analyser_main_run E file text w) by (by rewrite ?Hkey).
    destruct (Py.nonempty (Py.strip text)); [done|].
    by rewrite app_nil_r.
  - by apply analyser_main_without_key.
Qed.

Lemma app_is_analyser_without_insights_witness :
  ∃ events,
    events
    = StSuccess ("✅ File uploaded: " +:+ "notes.txt")
      :: shown_events Sample.env "John Smith 0"
    ∧ app_main Sample.env (Some (Sample.file "notes.txt" "text/plain")) Sample.fresh
      = (Done tt,
         add_trace (StTitle "📄 Automated File Cleansing & Analysis" :: events) Sample.fresh)
    ∧ analyser_main Sample.env (Some (Sample.file "notes.txt" "text/plain")) Sample.fresh
      = (Done tt,
         add_trace
           (StTitle "📄 VIT AP Automated File Cleansing & Analysis"
            :: events ++ insight_events Sample.env (redacted Sample.env "John Smith 0"))
           Sample.fresh).
Proof.
  exact (app_is_analyser_without_insights Sample.env (Sample.file "notes.txt" "text/plain")
           "John Smith 0" Sample.fresh eq_refl).
Defined.

(** * Words of a spreadsheet *)

(** The words of the line the export makes of a row are the words of
    its cells with a true truth value. *)
Lemma row_text_words (row : list cell_value) :
  Py.split (row_text row)
  = mjoin ((λ cell, Py.split (str cell)) <$> filter (λ cell, truthy cell = true) row).
Proof.
  unfold row_text. rewrite split_join_space, <-list_fmap_compose.
  induction row as [|cell row IH]; [done|].
  rewrite fmap_cons, filter_cons. cbn [compose].
  change (mjoin (?x :: ?l)) with (x ++ mjoin l). rewrite IH.
  destruct (truthy cell) eqn:Hc.
  - by rewrite decide_True by done.
  - by rewrite decide_False by done.
Qed.

(** The extraction makes the same words of a row, whatever follows. *)
Lemma row_view_words (row : list cell_value) (rest : string) :
  Py.split (row_view row +:+ rest) = Py.split (row_text row) ++ Py.split rest.
Proof.
  unfold row_view. rewrite append_assoc.
  replace ((λ cell, str cell +:+ " ") <$> filter (λ cell, truthy cell = true) row)
    with ((λ s, s +:+ String " " "") <$> (str <$> filter (λ cell, truthy cell = true) row))
    by (by rewrite <-list_fmap_compose).
  rewrite split_terminated; [|done].
  rewrite <-list_fmap_compose, row_text_words.
  f_equal; by apply split_leading_space.
Qed.

Lemma sheet_view_words (sheet : worksheet) (rest : string) :
  Py.split (sheet_view sheet +:+ rest)
  = mjoin ((λ row, Py.split (row_text row)) <$> iter_rows sheet) ++ Py.split rest.
Proof.
  unfold sheet_view. induction (iter_rows sheet) as [|row rows IH]; [done|].
  rewrite !fmap_cons. change (flat (?x :: ?l)) with (x +:+ flat l).
  change (mjoin (?x :: ?l)) with (x ++ mjoin l).
  by rewrite append_assoc, row_view_words, IH, app_assoc.
Qed.

(** X13.  The text the extraction makes of a workbook and the lines the
    export makes of its rows hold the same words in the same order: they
    differ in whitespace only (the extraction drops a cell with a false
    truth value, the export leaves an empty place for it). *)
Theorem extraction_and_rows_same_words (workbook : list worksheet) :
  Py.split (extract_xlsx workbook "")
  = mjoin ((λ sheet, mjoin ((λ row, Py.split (row_text row)) <$> iter_rows sheet))
           <$> workbook).
Proof.
  rewrite extract_xlsx_flat, append_nil_l.
  rewrite <-(append_nil_r (flat _)), <-(app_nil_r (mjoin _)).
  change [] with (Py.split ""). generalize "" as rest.
  induction workbook as [|sheet wb IH]; intros rest; [done|].
  rewrite !fmap_cons. change (flat (?x :: ?l)) with (x +:+ flat l).
  change (mjoin (?x :: ?l)) with (x ++ mjoin l).
  by rewrite append_assoc, sheet_view_words, IH, app_assoc.
Qed.

(** X14.  Every value the export stores in a cell is a token: it is not
    empty and holds no whitespace.  (So a cell text of two words never
    comes back as one cell.) *)
Theorem rebuilt_cells_are_tokens (E : externals) (sheet : worksheet) (r c : nat)
    (v : string) :
  ws_cells (rebuilt_sheet E sheet) !! (r, c) = Some v →
  Py.nonempty v = true ∧ Py.forallb_str (λ ch, negb (Py.isspace ch)) v = true.
Proof.
  rewrite rebuilt_sheet_lookup. unfold expected_cell, token_at.
  destruct r as [|r]; [done|]. destruct (iter_rows sheet !! r) as [row|]; [|done].
  cbn. destruct c as [|c]; [done|]. intros Hv.
  pose proof (split_tokens (redacted E (row_text row))) as Htok.
  rewrite Forall_lookup in Htok. specialize (Htok c v Hv).
  by apply andb_true_iff in Htok.
Qed.

Lemma rebuilt_cells_are_tokens_witness :
  Py.nonempty "<PERSON>" = true
  ∧ Py.forallb_str (λ ch, negb (Py.isspace ch)) "<PERSON>" = true.
Proof.
  apply (rebuilt_cells_are_tokens Sample.env
           {| title := "People"; iter_rows := [ [VStr "John"; VStr "Smith"; VInt 42] ] |} 1 1).
  reflexivity.
Defined.

(** X15.  Where the redaction leaves the line of a row unchanged, the
    rebuilt row holds the words of the original cells with a true truth
    value, one word per column from column 1 on: cells with a false truth
    value (null, empty, zero, False) vanish and the cells after them move
    left, and a cell of several words spreads over several columns. *)
Theorem unredacted_row_cells (E : externals) (sheet : worksheet) (r : nat)
    (row : list cell_value) :
  iter_rows sheet !! r = Some row →
  redacted E (row_text row) = row_text row →
  ∀ c, ws_cells (rebuilt_sheet E sheet) !! (S r, S c)
       = mjoin ((λ cell, Py.split (str cell)) <$> filter (λ cell, truthy cell = true) row)
         !! c.
Proof.
  intros Hrow Hid c. rewrite rebuilt_sheet_lookup. unfold expected_cell.
  rewrite Hrow. cbn. by rewrite Hid, row_text_words.
Qed.

Lemma unredacted_row_cells_witness :
  redacted Quiet.env (row_text [VInt 0; VStr ""; VStr "x y"])
  = row_text [VInt 0; VStr ""; VStr "x y"]
  ∧ ∀ c, ws_cells (rebuilt_sheet Quiet.env
                   {| title := "Totals"; iter_rows := [ [VInt 0; VStr ""; VStr "x y"] ] |})
         !! (1, S c)
       = mjoin ((λ cell, Py.split (str cell))
                <$> filter (λ cell, truthy cell = true) [VInt 0; VStr ""; VStr "x y"])
         !! c.
Proof.
  split; [reflexivity|].
  apply (unredacted_row_cells Quiet.env
           {| title := "Totals"; iter_rows := [ [VInt 0; VStr ""; VStr "x y"] ] |} 0
           [VInt 0; VStr ""; VStr "x y"]); reflexivity.
Defined.

(** X16.  A row comes back cell for cell when the redaction leaves its
    line unchanged and each of its cells has a true truth value and a text
    that is a single token: column c of the rebuilt row then holds the
    text of the c-th cell. *)
Theorem clean_row_round_trip (E : externals) (sheet : worksheet) (r : nat)
    (row : list cell_value) :
  iter_rows sheet !! r = Some row →
  redacted E (row_text row) = row_text row →
  Forall (λ cell, truthy cell = true ∧ is_token (str cell) = true) row →
  ∀ c, ws_cells (rebuilt_sheet E sheet) !! (S r, S c) = str <$> row !! c.
Proof.
  intros Hrow Hid Hcells c. rewrite rebuilt_sheet_lookup. unfold expected_cell.
  rewrite Hrow. cbn. rewrite Hid, row_text_words, <-list_lookup_fmap. f_equal.
  clear Hrow Hid. induction Hcells as [|cell row [Ht Htok] _ IH]; [done|].
  rewrite filter_cons, decide_True by done. rewrite !fmap_cons.
  change (mjoin (?x :: ?l)) with (x ++ mjoin l). by rewrite IH, split_token.
Qed.

Lemma clean_row_round_trip_witness :
  redacted Quiet.env (row_text [VStr "John"; VStr "Smith"; VInt 42])
  = row_text [VStr "John"; VStr "Smith"; VInt 42]
  ∧ ∀ c, ws_cells (rebuilt_sheet Quiet.env
                   {| title := "People"; iter_rows := [ [VStr "John"; VStr "Smith"; VInt 42] ] |})
         !! (1, S c)
       = str <$> [VStr "John"; VStr "Smith"; VInt 42] !! c.
Proof.
  split; [reflexivity|].
  apply (clean_row_round_trip Quiet.env
           {| title := "People"; iter_rows := [ [VStr "John"; VStr "Smith"; VInt 42] ] |} 0
           [VStr "John"; VStr "Smith"; VInt 42]); try reflexivity.
  repeat constructor.
Defined.

(** * The key and the end of a file's processing *)

Lemma forallb_Exists {A} (f : A → bool) (l : list A) :
  forallb f l = false ↔ Exists (λ x, f x = false) l.
Proof.
  induction l as [|x l IH]; cbn [forallb].
  - split; [done|by intros H; inversion H].
  - rewrite andb_false_iff, IH, Exists_cons. done.
Qed.

(** X17.  Both scripts with a language model build it before they look
    at a file, outside any [try].  With the key not set a run of
    [file_cleanser.py] on a batch that is not empty ends with the error of
    the model's constructor: the title is shown, and no file is extracted,
    no record appended, no clock read, no summary asked and the history
    not displayed.  A run of [File_analyser.py] ends with the error of the
    client's constructor after the title, whether a file was uploaded or
    not. *)
Theorem missing_key_stops_run (E : externals) (file : uploaded_file)
    (files : list uploaded_file) (uploaded : option uploaded_file) (w : world) :
  groq_api_key E = None →
  (∃ w', main E (file :: files) w = (Raise ValidationError, w')
         ∧ trace w' = trace w ++ [StTitle "📄 File Analyzer with AI"]
         ∧ upload_history w' = upload_history w
         ∧ clock w' = clock w
         ∧ llm_calls w' = llm_calls w)
  ∧ analyser_main E uploaded w
    = (Raise GroqError,
       add_trace [StTitle "📄 VIT AP Automated File Cleansing & Analysis"] w).
Proof.
  intros Hkey. split; [by apply main_without_key|by apply analyser_main_without_key].
Qed.

Lemma missing_key_stops_run_witness :
  (∃ w', main Quiet.env [Sample.file "notes.txt" "text/plain"] Sample.fresh
         = (Raise ValidationError, w')
         ∧ trace w' = trace Sample.fresh ++ [StTitle "📄 File Analyzer with AI"]
         ∧ upload_history w' = upload_history Sample.fresh
         ∧ clock w' = clock Sample.fresh
         ∧ llm_calls w' = llm_calls Sample.fresh)
  ∧ analyser_main Quiet.env (Some (Sample.file "notes.txt" "text/plain")) Sample.fresh
    = (Raise GroqError,
       add_trace [StTitle "📄 VIT AP Automated File Cleansing & Analysis"] Sample.fresh).
Proof.
  exact (missing_key_stops_run Quiet.env (Sample.file "notes.txt" "text/plain") []
           (Some (Sample.file "notes.txt" "text/plain")) Sample.fresh eq_refl).
Defined.



(** X19.  A line that the library refuses as a paragraph (a line with a
    control character, such as a form feed) ends the processing of a file
    with a word-processing name in its export, with [ValueError]: after
    the upload was recorded and the summary shown, and with no download
    offered. *)
Theorem refused_paragraph_stops_export (E : externals) (file : uploaded_file)
    (text : string) (h : list upload_record) (w : world) :
  extract_text E file = Done text →
  Py.endswith2 (name file) ".docx" ".DOCX" = true →
  Exists (λ line, add_paragraph_ok E line = false)
    (Py.split_on Py.newline (redacted E text)) →
  session_state w !! "upload_history" = Some h →
  ∃ w', process_file E file w = (Raise ValueError, w')
        ∧ upload_history w'
          = h ++ [ {| filename := name file; timestamp := now E (clock w) |} ]
        ∧ trace w'
          = trace w
            ++ [ CallAnalyze text; CallAnonymize text (analyze E text);
                 CallChainRun (redacted E text);
                 StSubheader ("🤖 AI Summary for " +:+ name file);
                 StTextArea "AI Summary" (shown_summary E (llm_calls w) text) ].
Proof.
  intros Hext Hd Hbad Hh. apply forallb_Exists in Hbad. eexists. split; [|split].
  - rewrite (process_file_to_export E file text h w Hext Hh).
    rewrite export_docx_run by done. rewrite Hbad. reflexivity.
  - unfold upload_history. cbn [session_state]. by rewrite lookup_insert_eq.
  - reflexivity.
Qed.

Lemma refused_paragraph_stops_export_witness :
  ∃ w', process_file Sample.env Sample.page Sample.started = (Raise ValueError, w')
        ∧ upload_history w'
          = [] ++ [ {| filename := "page.docx";
                       timestamp := now Sample.env (clock Sample.started) |} ]
        ∧ trace w'
          = trace Sample.started
            ++ [ CallAnalyze ("one" +:+ String (ascii_of_nat 12) "two");
                 CallAnonymize ("one" +:+ String (ascii_of_nat 12) "two")
                   (analyze Sample.env ("one" +:+ String (ascii_of_nat 12) "two"));
                 CallChainRun (redacted Sample.env ("one" +:+ String (ascii_of_nat 12) "two"));
                 StSubheader ("🤖 AI Summary for " +:+ "page.docx");
                 StTextArea "AI Summary"
                   (shown_summary Sample.env (llm_calls Sample.started)
                      ("one" +:+ String (ascii_of_nat 12) "two")) ].
Proof.
  apply (refused_paragraph_stops_export Sample.env Sample.page
           ("one" +:+ String (ascii_of_nat 12) "two") [] Sample.started);
    [reflexivity|reflexivity| |reflexivity].
  apply Exists_cons. by left.
Defined.
